(** * stingray/base.py: the [StingrayObject] base class

    A shallow embedding of [src/stingray/base.py].  Python attribute
    namespaces are finite maps from names to values, [dir] is the sorted
    list of their keys, and the methods of [StingrayObject] are written in
    a small state-and-exception monad over a store holding the class
    namespace, the namespace of one instance of it, the file system and
    the log of emitted warnings.  [setattr(cls, ...)] writes to the class
    namespace, which every lookup on the instance falls back to.

    What the module asks of numpy, astropy, xarray and pandas is modelled
    as far as the module looks at it: arrays carry a dtype, a shape and
    their items in row-major order, floats are IEEE 754 binary64 (the
    Standard Library's [SpecFloat]), a table is an ordered dict of columns
    with a dict of metadata.  The readers and writers of files, and the
    constructors of datasets and data frames, are parameters. *)

From Stdlib Require Import ZArith String Ascii List.
From Stdlib Require Import Floats.SpecFloat.
From stdpp Require Import base gmap strings list sorting.

Local Open Scope string_scope.

(** ** Numbers: IEEE 754 binary64 and complex128 *)

Module Float64.

Definition prec : Z := 53.
Definition emax : Z := 1024.

Definition float64 : Type := spec_float.

Definition fadd : float64 → float64 → float64 := SFadd prec emax.
Definition fsub : float64 → float64 → float64 := SFsub prec emax.
Definition fmul : float64 → float64 → float64 := SFmul prec emax.

(** [x != 0] of IEEE 754: a NaN differs from everything, both zeros are
    zero. *)
Definition nonzero (x : float64) : bool :=
  match SFcompare x (S754_zero false) with
  | Some Eq => false
  | _ => true
  end.

(** The binary64 value of an integer literal such as [1.0] or [-4.0]. *)
Definition of_Z (z : Z) : float64 := binary_normalize prec emax z 0 false.

Record complex128 : Type := Complex { real : float64; imag : float64 }.

Definition of_real (x : float64) : complex128 := Complex x (S754_zero false).

Definition cadd (a b : complex128) : complex128 :=
  Complex (fadd (real a) (real b)) (fadd (imag a) (imag b)).

Definition cmul (a b : complex128) : complex128 :=
  Complex (fsub (fmul (real a) (real b)) (fmul (imag a) (imag b)))
          (fadd (fmul (real a) (imag b)) (fmul (imag a) (real b))).

(** The Python literals [1j] and [0.0j]. *)
Definition j1 : complex128 := Complex (S754_zero false) (of_Z 1).
Definition j0 : complex128 := Complex (S754_zero false) (S754_zero false).

Global Instance float64_eq_dec : EqDecision float64.
Proof. unfold float64. solve_decision. Defined.
Global Instance complex128_eq_dec : EqDecision complex128.
Proof. solve_decision. Defined.

End Float64.
Export Float64.


(** ** Python values

    The values an attribute can hold, as far as the classifier tells them
    apart: [isinstance(v, Iterable)], [np.shape(v)], [callable(v)] and
    [hasattr(v, "meta_attrs")]. *)

Inductive ndarray : Type :=
  | ArrF (shape : list nat) (items : list float64)     (* dtype float64 *)
  | ArrC (shape : list nat) (items : list complex128)  (* dtype complex128 *)
  | ArrU (shape : list nat) (items : list string).     (* dtype str *)

Inductive value : Type :=
  | VNone
  | VFloat (x : float64)        (* a float scalar *)
  | VStr (s : string)
  | VList (l : list float64)    (* a Python list of floats *)
  | VArray (a : ndarray)        (* a numpy array *)
  | VCallable                   (* a method, function or class *)
  | VStingray.                  (* a nested StingrayObject *)

Global Instance ndarray_eq_dec : EqDecision ndarray.
Proof. solve_decision. Defined.
Global Instance value_eq_dec : EqDecision value.
Proof. solve_decision. Defined.

Definition arr_shape (a : ndarray) : list nat :=
  match a with ArrF s _ | ArrC s _ | ArrU s _ => s end.

(** [np.asarray(v)] for the values that reach it (iterables). *)
Definition np_asarray (v : value) : ndarray :=
  match v with
  | VArray a => a
  | VList l => ArrF [length l] l
  | VStr s => ArrU [] [s]
  | VFloat x => ArrF [] [x]
  | VNone | VCallable | VStingray => ArrU [] []   (* 0-d object array *)
  end.

(** [np.shape(v)]: everything that is not a sequence or an array has the
    empty shape [()]. *)
Definition np_shape (v : value) : list nat := arr_shape (np_asarray v).

(** [isinstance(v, collections.abc.Iterable)]: strings, lists and numpy
    arrays (of any dimension) define [__iter__]. *)
Definition isinstance_Iterable (v : value) : bool :=
  match v with
  | VStr _ | VList _ | VArray _ => true
  | _ => false
  end.

Definition callable (v : value) : bool :=
  match v with VCallable => true | _ => false end.

(** [hasattr(v, "meta_attrs")]: only StingrayObjects have the method. *)
Definition hasattr_meta_attrs (v : value) : bool :=
  match v with VStingray => true | _ => false end.

Definition is_None (v : value) : bool :=
  match v with VNone => true | _ => false end.

(** [attr.startswith("_")] *)
Definition startswith_underscore (attr : string) : bool :=
  match attr with
  | String c _ => bool_decide (c = "_"%char)
  | EmptyString => false
  end.

(** ** The store, exceptions and the monad *)

Inductive exn : Type :=
  | AttributeError | KeyError | TypeError | ValueError | IndexError
  | RuntimeError | UnboundLocalError | UFuncTypeError | OSError.

Global Instance exn_eq_dec : EqDecision exn.
Proof. solve_decision. Defined.

(** [issubclass(e', e)] on these classes: each is a subclass of itself, and
    numpy's [UFuncTypeError] derives from [TypeError]. *)
Definition exn_issubclass (e' e : exn) : bool :=
  bool_decide (e' = e)
  || match e', e with
     | UFuncTypeError, TypeError => true
     | _, _ => false
     end.

Inductive res (A : Type) : Type :=
  | Ok (a : A)
  | Raise (e : exn).
Arguments Ok {A} a.
Arguments Raise {A} e.

Inductive warning : Type :=
  | DeprecationWarning (msg : string).

(** A Python dict keeps insertion order: an association list with unique
    keys, a new key going to the end. *)
Definition dict (V : Type) : Type := list (string * V).

Fixpoint dict_get {V} (d : dict V) (k : string) : option V :=
  match d with
  | [] => None
  | (k', v) :: d' => if decide (k' = k) then Some v else dict_get d' k
  end.

Fixpoint dict_set {V} (d : dict V) (k : string) (v : V) : dict V :=
  match d with
  | [] => [(k, v)]
  | (k', v') :: d' =>
      if decide (k' = k) then (k, v) :: d' else (k', v') :: dict_set d' k v
  end.

Fixpoint dict_del {V} (d : dict V) (k : string) : dict V :=
  match d with
  | [] => []
  | (k', v') :: d' => if decide (k' = k) then d' else (k', v') :: dict_del d' k
  end.

Definition dict_keys {V} (d : dict V) : list string := d.*1.

(** [d.update(e)] *)
Definition dict_update {V} (d e : dict V) : dict V :=
  foldl (λ acc kv, dict_set acc kv.1 kv.2) d e.

(** Strings, as Python's [str] methods used by the module.  Strings are
    byte strings here, and [lower] maps the ASCII capitals only. *)

Fixpoint endswith (s suffix : string) : bool :=
  bool_decide (s = suffix) ||
  match s with
  | EmptyString => false
  | String _ s' => endswith s' suffix
  end.

(** [sub in s] *)
Fixpoint str_in (sub s : string) : bool :=
  String.prefix sub s ||
  match s with
  | EmptyString => false
  | String _ s' => str_in sub s'
  end.

Definition ascii_lower (c : ascii) : ascii :=
  let n := nat_of_ascii c in
  if Nat.leb 65 n && Nat.leb n 90 then ascii_of_nat (n + 32) else c.

Fixpoint lower (s : string) : string :=
  match s with
  | EmptyString => EmptyString
  | String c s' => String (ascii_lower c) (lower s')
  end.

(** [s.replace(old, new)] for a non-empty [old]: the occurrences are
    replaced from the left, without overlap.  [skip] counts the characters
    of a matched occurrence that are still to be dropped. *)
Fixpoint replace_go (old new : string) (skip : nat) (s : string) : string :=
  match s with
  | EmptyString => EmptyString
  | String c s' =>
      match skip with
      | S k => replace_go old new k s'
      | O =>
          if String.prefix old s
          then new ++ replace_go old new (String.length old - 1) s'
          else String c (replace_go old new 0 s')
      end
  end.

Definition replace (s old new : string) : string := replace_go old new 0 s.

(** ** Tables (astropy), datasets (xarray) and data frames (pandas) *)

Record table : Type := MkTable {
  columns : dict ndarray;
  meta : dict value
}.

Definition colnames (ts : table) : list string := dict_keys (columns ts).

(** [len(ts)]: the number of rows. *)
Definition table_len (ts : table) : nat :=
  match columns ts with
  | [] => 0
  | (_, a) :: _ => hd 0 (arr_shape a)
  end.

Definition leading_dim (a : ndarray) : option nat := head (arr_shape a).

(** [Table(data)] for a dict of arrays: every column needs a length, and
    the lengths have to agree. *)
Definition Table (data : dict ndarray) : res table :=
  match data with
  | [] => Ok (MkTable [] [])
  | (_, a) :: _ =>
      match leading_dim a with
      | None => Raise ValueError
      | Some n =>
          if bool_decide (Forall (λ kv, leading_dim kv.2 = Some n) data)
          then Ok (MkTable data [])
          else Raise ValueError
      end
  end.

(** An xarray [Dataset]: data variables, coordinates and attributes.
    [len(ds)] counts the data variables. *)
Record dataset : Type := MkDataset {
  data_vars : dict ndarray;
  coords : dict ndarray;
  ds_attrs : dict value
}.

Definition dataset_len (ds : dataset) : nat := length (data_vars ds).

(** [ds[name]]: a data variable or a coordinate. *)
Definition dataset_get (ds : dataset) (name : string) : option ndarray :=
  match dict_get (data_vars ds) name with
  | Some a => Some a
  | None => dict_get (coords ds) name
  end.

(** A pandas [DataFrame]: an index of [df_rows] labels, columns and
    attributes.  [len(df)] is the length of the index. *)
Record dataframe : Type := MkDataFrame {
  df_rows : nat;
  df_columns : dict ndarray;
  df_attrs : dict value
}.

Definition dataframe_len (df : dataframe) : nat := df_rows df.

(** What a reader hands back: the class object [cls] itself, whose state is
    in the store, or an instance rebuilt by [pickle], given by its
    [__dict__]. *)
Inductive pyobj : Type :=
  | Cls
  | Unpickled (d : gmap string value).

Section Store.

(** The file system is left abstract: its codecs belong to astropy and
    pickle. *)
Context {fsys : Type}.

Record world : Type := World {
  klass : gmap string value;     (* the attributes of the class [cls] *)
  inst : gmap string value;      (* [self.__dict__] of the instance *)
  files : fsys;
  warnings : list warning
}.

(** What attribute lookup on [self] sees: the instance dictionary, then
    the class. *)
Definition view (w : world) : gmap string value := inst w ∪ klass w.

Definition M (A : Type) : Type := world → res A * world.

Definition ret {A} (a : A) : M A := λ w, (Ok a, w).
Definition raise {A} (e : exn) : M A := λ w, (Raise e, w).
Definition bind {A B} (m : M A) (k : A → M B) : M B :=
  λ w, match m w with
       | (Ok a, w') => k a w'
       | (Raise e, w') => (Raise e, w')
       end.
Definition lift {A} (r : res A) : M A := λ w, (r, w).

End Store.
Arguments world : clear implicits.
Arguments M : clear implicits.

Notation "x <- m ;; k" := (bind m (λ x, k))
  (at level 100, m at next level, right associativity,
   format "'[' x  <-  m  ;; '//' k ']'").
Notation "m ;;; k" := (bind m (λ _, k))
  (at level 100, right associativity).

Section Classifier.

Context {fsys : Type}.
Local Abbreviation M := (M fsys).

Fixpoint filterM {A} (p : A → M bool) (l : list A) : M (list A) :=
  match l with
  | [] => ret []
  | x :: l' =>
      b <- p x ;;
      r <- filterM p l' ;;
      ret (if b then x :: r else r)
  end.

Fixpoint forM_ {A} (l : list A) (f : A → M unit) : M unit :=
  match l with
  | [] => ret tt
  | x :: l' => f x ;;; forM_ l' f
  end.

(** [getattr(self, name)] *)
Definition getattr_self (name : string) : M value :=
  λ w, match view w !! name with
       | Some v => (Ok v, w)
       | None => (Raise AttributeError, w)
       end.

(** [getattr(cls, name)] *)
Definition getattr_cls (name : string) : M value :=
  λ w, match klass w !! name with
       | Some v => (Ok v, w)
       | None => (Raise AttributeError, w)
       end.

(** [setattr(cls, name, v)] *)
Definition setattr_cls (name : string) (v : value) : M unit :=
  λ w, (Ok tt, World (<[name := v]> (klass w)) (inst w) (files w) (warnings w)).

(** An attribute name or a column key has to be a string. *)
Definition as_name (n : value) : M string :=
  match n with
  | VStr name => ret name
  | _ => raise TypeError
  end.

(** [hasattr(self, name)] *)
Definition hasattr_self (name : string) : M bool :=
  λ w, (Ok (bool_decide (is_Some (view w !! name))), w).

(** [dir(self)]: the attribute names, sorted. *)
Definition dir_of (ns : gmap string value) : list string :=
  merge_sort String.le (elements (dom ns)).

Definition dir_self : M (list string) := λ w, (Ok (dir_of (view w)), w).

(** [StingrayObject.__init__] *)
Definition __init__ : M unit :=
  b <- hasattr_self "main_array_attr" ;;
  if negb b then raise RuntimeError else ret tt.

(** [StingrayObject.array_attrs] *)
Definition array_attrs : M (list string) :=
  n <- getattr_self "main_array_attr" ;;
  name <- as_name n ;;
  main_attr <- getattr_self name ;;
  if is_None main_attr then ret []
  else
    names <- dir_self ;;
    filterM (λ attr,
      v <- getattr_self attr ;;
      if isinstance_Iterable v then
        v' <- getattr_self attr ;;
        ret (bool_decide (np_shape v' = np_shape main_attr))
      else ret false) names.

(** [StingrayObject.meta_attrs] *)
Definition meta_attrs : M (list string) :=
  array_attrs <- array_attrs ;;
  names <- dir_self ;;
  filterM (λ attr,
    if bool_decide (attr ∉ array_attrs) then
      if negb (startswith_underscore attr) then
        attr_value <- getattr_self attr ;;
        if negb (callable attr_value) then
          ret (negb (hasattr_meta_attrs attr_value))
        else ret false
      else ret false
    else ret false) names.

(** The loop of [get_meta_dict] over the remaining keys. *)
Fixpoint get_meta_dict_loop (keys : list string) (meta_dict : dict value)
    : M (dict value) :=
  match keys with
  | [] => ret meta_dict
  | key :: keys' =>
      val <- getattr_self key ;;
      if negb (is_None val)
      then get_meta_dict_loop keys' (dict_set meta_dict key val)
      else get_meta_dict_loop keys' meta_dict
  end.

(** [StingrayObject.get_meta_dict] *)
Definition get_meta_dict : M (dict value) :=
  meta_attrs <- meta_attrs ;;
  get_meta_dict_loop meta_attrs [].

(** The loop filling [data] in the exporters. *)
Fixpoint collect_data (attrs : list string) (data : dict ndarray)
    : M (dict ndarray) :=
  match attrs with
  | [] => ret data
  | attr :: attrs' =>
      v <- getattr_self attr ;;
      collect_data attrs' (dict_set data attr (np_asarray v))
  end.

(** [StingrayObject.to_astropy_table] *)
Definition to_astropy_table : M table :=
  array_attrs <- array_attrs ;;
  data <- collect_data array_attrs [] ;;
  ts <- lift (Table data) ;;
  meta_dict <- get_meta_dict ;;
  ret (MkTable (columns ts) (dict_update (meta ts) meta_dict)).

(** [StingrayObject.from_astropy_table] *)
Definition from_astropy_table (ts : table) : M pyobj :=
  if bool_decide (table_len ts = 0) then ret Cls
  else
    let array_attrs := colnames ts in
    n <- getattr_cls "main_array_attr" ;;
    main <- as_name n ;;
    mainarray <- lift (from_option Ok (Raise KeyError) (dict_get (columns ts) main)) ;;
    setattr_cls main (VArray mainarray) ;;;
    forM_ array_attrs (λ attr,
      n <- getattr_cls "main_array_attr" ;;
      if bool_decide (VStr attr = n) then ret tt
      else
        a <- lift (from_option Ok (Raise KeyError) (dict_get (columns ts) attr)) ;;
        setattr_cls attr (VArray a)) ;;;
    forM_ (meta ts) (λ kv, setattr_cls kv.1 kv.2) ;;;
    ret Cls.

(** [StingrayObject.from_xarray] *)
Definition from_xarray (ts : dataset) : M pyobj :=
  if bool_decide (dataset_len ts = 0) then ret Cls
  else
    let array_attrs := dict_keys (coords ts) in
    n <- getattr_cls "main_array_attr" ;;
    main <- as_name n ;;
    mainarray <- lift (from_option Ok (Raise KeyError) (dataset_get ts main)) ;;
    setattr_cls main (VArray mainarray) ;;;
    forM_ array_attrs (λ attr,
      n <- getattr_cls "main_array_attr" ;;
      if bool_decide (VStr attr = n) then ret tt
      else
        a <- lift (from_option Ok (Raise KeyError) (dataset_get ts attr)) ;;
        setattr_cls attr (VArray a)) ;;;
    forM_ (ds_attrs ts) (λ kv,
      if bool_decide (kv.1 ∉ array_attrs) then setattr_cls kv.1 kv.2
      else ret tt) ;;;
    ret Cls.

(** [StingrayObject.from_pandas] *)
Definition from_pandas (ts : dataframe) : M pyobj :=
  if bool_decide (dataframe_len ts = 0) then ret Cls
  else
    let array_attrs := dict_keys (df_columns ts) in
    n <- getattr_cls "main_array_attr" ;;
    main <- as_name n ;;
    mainarray <- lift (from_option Ok (Raise KeyError) (dict_get (df_columns ts) main)) ;;
    setattr_cls main (VArray mainarray) ;;;
    forM_ array_attrs (λ attr,
      n <- getattr_cls "main_array_attr" ;;
      if bool_decide (VStr attr = n) then ret tt
      else
        a <- lift (from_option Ok (Raise KeyError) (dict_get (df_columns ts) attr)) ;;
        setattr_cls attr (VArray a)) ;;;
    forM_ (df_attrs ts) (λ kv,
      if bool_decide (kv.1 ∉ array_attrs) then setattr_cls kv.1 kv.2
      else ret tt) ;;;
    ret Cls.

End Classifier.

(** The exporters to xarray and pandas.  The constructors [Dataset(data)]
    and [DataFrame(data)] belong to those libraries and are left abstract. *)

Section Exporters.

Context {fsys : Type}.
Variable Dataset : dict ndarray → res dataset.
Variable DataFrame : dict ndarray → res dataframe.

(** [StingrayObject.to_xarray] *)
Definition to_xarray : M fsys dataset :=
  array_attrs <- array_attrs ;;
  data <- collect_data array_attrs [] ;;
  ts <- lift (Dataset data) ;;
  meta_dict <- get_meta_dict ;;
  ret (MkDataset (data_vars ts) (coords ts)
         (dict_update (ds_attrs ts) meta_dict)).

(** [StingrayObject.to_pandas] *)
Definition to_pandas : M fsys dataframe :=
  array_attrs <- array_attrs ;;
  data <- collect_data array_attrs [] ;;
  ts <- lift (DataFrame data) ;;
  meta_dict <- get_meta_dict ;;
  ret (MkDataFrame (df_rows ts) (df_columns ts)
         (dict_update (df_attrs ts) meta_dict)).

End Exporters.

(** ** Columns: the numpy arithmetic used by [read] and [write] *)

(** [a * 1j] *)
Definition arr_mul_1j (a : ndarray) : res ndarray :=
  match a with
  | ArrF s l => Ok (ArrC s ((λ x, cmul (of_real x) j1) <$> l))
  | ArrC s l => Ok (ArrC s ((λ z, cmul z j1) <$> l))
  | ArrU _ _ => Raise UFuncTypeError
  end.

(** [a + 0.0j] *)
Definition arr_add_0j (a : ndarray) : res ndarray :=
  match a with
  | ArrF s l => Ok (ArrC s ((λ x, cadd (of_real x) j0) <$> l))
  | ArrC s l => Ok (ArrC s ((λ z, cadd z j0) <$> l))
  | ArrU _ _ => Raise UFuncTypeError
  end.

(** [a += b] for a complex [b] of the shape of [a]: the sum has to fit the
    dtype of [a]. *)
Definition arr_iadd (a b : ndarray) : res ndarray :=
  match a, b with
  | ArrC s l, ArrC s' l' =>
      if bool_decide (s = s') then Ok (ArrC s (zip_with cadd l l'))
      else Raise ValueError
  | _, _ => Raise UFuncTypeError
  end.

(** [a.real] and [a.imag] *)
Definition arr_real (a : ndarray) : ndarray :=
  match a with
  | ArrC s l => ArrF s (real <$> l)
  | _ => a
  end.

Definition arr_imag (a : ndarray) : ndarray :=
  match a with
  | ArrC s l => ArrF s (imag <$> l)
  | ArrF s l => ArrF s ((λ _, S754_zero false) <$> l)
  | ArrU s l => ArrF s ((λ _, S754_zero false) <$> l)
  end.

(** [np.iscomplex(a[0])] as the condition of an [if]: the first row has
    [product (tail shape)] items, [np.iscomplex] tells for each whether its
    imaginary part is non-zero, and only a single item has a truth value. *)
Definition iscomplex_items (a : ndarray) : list bool :=
  match a with
  | ArrC _ l => (λ z, nonzero (imag z)) <$> l
  | ArrF _ l => (λ _, false) <$> l
  | ArrU _ l => (λ _, false) <$> l
  end.

Definition iscomplex_first (a : ndarray) : res bool :=
  match arr_shape a with
  | [] => Raise IndexError
  | O :: _ => Raise IndexError
  | S _ :: rest =>
      match take (foldr Nat.mul 1 rest) (iscomplex_items a) with
      | [b] => Ok b
      | _ => Raise ValueError
      end
  end.

(** [ts[col]], [ts[col] = a] and [ts.remove_column(col)] *)
Definition table_get (ts : table) (col : string) : res ndarray :=
  from_option Ok (Raise KeyError) (dict_get (columns ts) col).

Definition table_set (ts : table) (col : string) (a : ndarray) : table :=
  MkTable (dict_set (columns ts) col a) (meta ts).

Definition remove_column (ts : table) (col : string) : table :=
  MkTable (dict_del (columns ts) col) (meta ts).

Section IO.

Context {fsys : Type}.
Local Abbreviation M := (M fsys).

(** The collaborators: [Table.read(filename, format=fmt)],
    [ts.write(filename, format=fmt, overwrite=True)] with or without
    [serialize_meta=True], and [pickle.load] and [pickle.dump] on the
    opened file. *)
Variable Table_read : string → option string → fsys → res table.
Variable Table_write :
  table → string → option string → bool → fsys → res unit * fsys.
Variable pickle_load : string → fsys → res (gmap string value).
Variable pickle_dump : gmap string value → string → fsys → res unit * fsys.

Definition warn (wn : warning) : M unit :=
  λ w, (Ok tt, World (klass w) (inst w) (files w) (warnings w ++ [wn])).

Definition read_files {A} (f : fsys → res A) : M A :=
  λ w, (f (files w), w).

Definition write_files {A} (f : fsys → res A * fsys) : M A :=
  λ w, let '(r, fs) := f (files w) in
       (r, World (klass w) (inst w) fs (warnings w)).

Definition self_dict : M (gmap string value) := λ w, (Ok (inst w), w).

(** [try: m except e: h]: the handler takes an exception of the class
    [e] or of a class derived from it. *)
Definition try_except {A} (m : M A) (e : exn) (h : M A) : M A :=
  λ w, match m w with
       | (Raise e', w') =>
           if exn_issubclass e' e then h w' else (Raise e', w')
       | r => r
       end.

Definition deprecation_msg : string :=
  "The format_ keyword for read and write is deprecated. Use fmt instead".

(** The loop of [read] over the column names.  [is_imag] is the local
    variable of that name: [None] while it is unbound.  The walrus
    assignment to it sits on the right of an [or] and is skipped when the
    name ends in [.real]. *)
Fixpoint read_complex_loop (cols : list string) (is_imag : option bool)
    (ts : table) : M table :=
  match cols with
  | [] => ret ts
  | col :: cols' =>
      let is_real := endswith col ".real" in
      let is_imag := if is_real then is_imag else Some (endswith col ".imag") in
      if negb (is_real || from_option id false is_imag)
      then read_complex_loop cols' is_imag ts
      else
        new_value <- lift (table_get ts col) ;;
        b <- lift (from_option Ok (Raise UnboundLocalError) is_imag) ;;
        new_value <- (if b : bool then lift (arr_mul_1j new_value)
                      else ret new_value) ;;
        new_value <- lift (arr_add_0j new_value) ;;
        let col_strip := replace (replace col ".real" "") ".imag" "" in
        ts <- (if bool_decide (col_strip ∉ colnames ts)
               then ret (table_set ts col_strip new_value)
               else
                 old <- lift (table_get ts col_strip) ;;
                 sum <- lift (arr_iadd old new_value) ;;
                 ret (table_set ts col_strip sum)) ;;
        read_complex_loop cols' is_imag (remove_column ts col)
  end.

(** [read] from [Table.read] on, once [fmt] is settled. *)
Definition read_table (filename : string) (fmt : option string) : M pyobj :=
  ts <- read_files (Table_read filename fmt) ;;
  ts <- (if bool_decide (fmt = None) || from_option (str_in "ascii") false fmt
         then read_complex_loop (colnames ts) None ts
         else ret ts) ;;
  from_astropy_table ts.

(** [StingrayObject.read] *)
Definition read (filename : string) (fmt format_ : option string) : M pyobj :=
  fmt <- (match fmt, format_ with
          | None, Some _ =>
              warn (DeprecationWarning deprecation_msg) ;;; ret format_
          | _, _ => ret fmt
          end) ;;
  match fmt with
  | None => read_table filename None
  | Some f =>
      if bool_decide (lower f = "pickle") then
        d <- read_files (pickle_load filename) ;;
        ret (Unpickled d)
      else if bool_decide (lower f = "ascii") then
        read_table filename (Some "ascii.ecsv")
      else read_table filename (Some f)
  end.

(** The loop of [write] over the column names. *)
Fixpoint write_complex_loop (cols : list string) (ts : table) : M table :=
  match cols with
  | [] => ret ts
  | col :: cols' =>
      c <- lift (table_get ts col) ;;
      b <- lift (iscomplex_first c) ;;
      if b : bool then
        c <- lift (table_get ts col) ;;
        let ts := table_set ts (col ++ ".real") (arr_real c) in
        c <- lift (table_get ts col) ;;
        let ts := table_set ts (col ++ ".imag") (arr_imag c) in
        write_complex_loop cols' (remove_column ts col)
      else write_complex_loop cols' ts
  end.

(** [write] from [to_astropy_table] on, once [fmt] is settled. *)
Definition write_table (filename : string) (fmt : option string) : M unit :=
  ts <- to_astropy_table ;;
  ts <- (if bool_decide (fmt = None) || from_option (str_in "ascii") false fmt
         then write_complex_loop (colnames ts) ts
         else ret ts) ;;
  try_except (write_files (Table_write ts filename fmt true)) TypeError
    (write_files (Table_write ts filename fmt false)).

(** [StingrayObject.write] *)
Definition write (filename : string) (fmt format_ : option string) : M unit :=
  fmt <- (match fmt, format_ with
          | None, Some _ =>
              warn (DeprecationWarning deprecation_msg) ;;; ret format_
          | _, _ => ret fmt
          end) ;;
  match fmt with
  | None => write_table filename None
  | Some f =>
      if bool_decide (lower f = "pickle") then
        d <- self_dict ;;
        write_files (pickle_dump d filename)
      else if bool_decide (lower f = "ascii") then
        write_table filename (Some "ascii.ecsv")
      else write_table filename (Some f)
  end.

End IO.

(** ** A file system in memory

    The simplest collaborators: a file holds the table or the instance
    dictionary that was written to it, whatever the format. *)

Module MemFS.

Inductive file : Type :=
  | FTable (ts : table)
  | FPickle (d : gmap string value).

Abbreviation fsys := (gmap string file).

Definition Table_read (filename : string) (fmt : option string) (fs : fsys)
    : res table :=
  match fs !! filename with
  | Some (FTable ts) => Ok ts
  | _ => Raise OSError
  end.

Definition Table_write (ts : table) (filename : string) (fmt : option string)
    (serialize_meta : bool) (fs : fsys) : res unit * fsys :=
  (Ok tt, <[filename := FTable ts]> fs).

Definition pickle_load (filename : string) (fs : fsys)
    : res (gmap string value) :=
  match fs !! filename with
  | Some (FPickle d) => Ok d
  | _ => Raise OSError
  end.

Definition pickle_dump (d : gmap string value) (filename : string) (fs : fsys)
    : res unit * fsys :=
  (Ok tt, <[filename := FPickle d]> fs).

End MemFS.

(** ** Example objects *)

(** What every subclass inherits from [StingrayObject] and [object]. *)
Definition StingrayObject_ns : gmap string value :=
  list_to_map
    [("__class__", VCallable); ("__doc__", VStr "Base classes");
     ("__init__", VCallable); ("__module__", VStr "stingray.base");
     ("array_attrs", VCallable); ("meta_attrs", VCallable);
     ("get_meta_dict", VCallable);
     ("to_astropy_table", VCallable); ("from_astropy_table", VCallable);
     ("to_xarray", VCallable); ("from_xarray", VCallable);
     ("to_pandas", VCallable); ("from_pandas", VCallable);
     ("read", VCallable); ("write", VCallable)].

(** A subclass declaring [main_array_attr = "time"]. *)
Definition TimeSeries_ns : gmap string value :=
  <["main_array_attr" := VStr "time"]> StingrayObject_ns.

Definition fl (z : Z) : float64 := of_Z z.
Definition cx (a b : Z) : complex128 := Complex (of_Z a) (of_Z b).

(** [z = [1+2j, 3-4j]] and its two halves. *)
Definition z_complex : ndarray := ArrC [2] [cx 1 2; cx 3 (-4)].
Definition z_real : ndarray := ArrF [2] [fl 1; fl 3].
Definition z_imag : ndarray := ArrF [2] [fl 2; fl (-4)].


(** An event list of three events, with metadata, an unset attribute, a
    private one and a nested object. *)
Definition events_obj : world unit :=
  World TimeSeries_ns
    (list_to_map
       [("time", VList [fl 1; fl 2; fl 3]);
        ("pi", VArray (ArrF [3] [fl 10; fl 20; fl 30]));
        ("gti", VArray (ArrF [1; 2] [fl 0; fl 4]));
        ("mjdref", VFloat (fl 55000));
        ("mission", VNone);
        ("_mask", VFloat (fl 0));
        ("lc", VStingray)])
    tt [].

(** An event list without events. *)
Definition empty_obj : world unit :=
  World TimeSeries_ns
    (list_to_map [("time", VList []); ("mjdref", VFloat (fl 55000))])
    tt [].

(** A class that does not declare [main_array_attr], freshly instantiated. *)
Definition undeclared_obj : world unit := World StingrayObject_ns ∅ tt [].

(** A text table whose imaginary half comes before the real one. *)
Definition imag_first_table : table :=
  MkTable [("time", ArrF [2] [fl 0; fl 1]); ("z.imag", z_imag);
           ("z.real", z_real)] [].

(** A text table that starts with a real half. *)
Definition real_first_table : table :=
  MkTable [("z.real", z_real); ("time", ArrF [2] [fl 0; fl 1])] [].

(** The class [TimeSeries] and a file holding the given table. *)
Definition table_on_disk (ts : table) : world MemFS.fsys :=
  World TimeSeries_ns ∅ {["events.ecsv" := MemFS.FTable ts]} [].



(** ** Specification predicates *)

Section Specs.

Context {fsys : Type}.

(** The store with another log of warnings. *)
Definition set_warnings (ws : list warning) (w : world fsys) : world fsys :=
  World (klass w) (inst w) (files w) ws.

(** An action neither reads nor writes the log of warnings. *)
Definition WInd {A} (m : M fsys A) : Prop :=
  ∀ ws w, m (set_warnings ws w) = ((m w).1, set_warnings ws (m w).2).

(** The test of the comprehension in [array_attrs]. *)
Definition is_array_attr (ns : gmap string value) (main_attr : value)
    (attr : string) : Prop :=
  ∃ v, ns !! attr = Some v ∧ isinstance_Iterable v = true
       ∧ np_shape v = np_shape main_attr.

(** The test of the comprehension in [meta_attrs]. *)
Definition is_meta_attr (ns : gmap string value) (array_attrs : list string)
    (attr : string) : Prop :=
  (attr ∉ array_attrs) ∧ startswith_underscore attr = false
  ∧ ∃ v, ns !! attr = Some v ∧ callable v = false
         ∧ hasattr_meta_attrs v = false.

Global Instance is_array_attr_dec ns main_attr attr :
  Decision (is_array_attr ns main_attr attr).
Proof.
  unfold is_array_attr. destruct (ns !! attr) as [v|].
  - destruct (decide (isinstance_Iterable v = true
                      ∧ np_shape v = np_shape main_attr)) as [H|H].
    + left. by exists v.
    + right. intros (v' & [= <-] & ?). by apply H.
  - right. by intros (v' & [=] & ?).
Defined.

Global Instance is_meta_attr_dec ns array_attrs attr :
  Decision (is_meta_attr ns array_attrs attr).
Proof.
  unfold is_meta_attr. destruct (ns !! attr) as [v|].
  - destruct (decide ((attr ∉ array_attrs)
                      ∧ startswith_underscore attr = false
                      ∧ callable v = false
                      ∧ hasattr_meta_attrs v = false)) as [H|H].
    + left. destruct H as (? & ? & ? & ?). eauto 10.
    + right. intros (? & ? & v' & [= <-] & ? & ?). by apply H.
  - right. by intros (? & ? & v' & [=] & ?).
Defined.

(** The dict a loop builds that visits [keys] in order and stores [g k]
    under [k] when [keep k] holds. *)
Fixpoint dict_fill {V} (keep : string → bool) (g : string → V)
    (keys : list string) (d : dict V) : dict V :=
  match keys with
  | [] => d
  | k :: keys' => dict_fill keep g keys' (if keep k then dict_set d k (g k) else d)
  end.

(** The class after [setattr(cls, k, v)] for the pairs of a list. *)
Definition set_klass (ns : gmap string value) (w : world fsys) : world fsys :=
  World ns (inst w) (files w) (warnings w).

(** The class after the loop of [from_astropy_table] over the columns. *)
Definition import_columns (cols : dict ndarray) (name : string)
    (names : list string) (ns : gmap string value) : gmap string value :=
  foldl (λ ns a, if decide (a = name) then ns
                 else <[a := VArray (default (ArrU [] []) (dict_get cols a))]> ns)
        ns names.

(** The [data] and the metadata an exporter collects from the attributes
    [ns] of the object, given its array and its meta attributes. *)
Definition export_data (ns : gmap string value) (al : list string)
    : dict ndarray :=
  dict_fill (λ _, true) (λ a, np_asarray (default VNone (ns !! a))) al [].

Definition export_meta (ns : gmap string value) (ml : list string)
    : dict value :=
  dict_fill (λ k, negb (is_None (default VNone (ns !! k))))
            (λ k, default VNone (ns !! k)) ml [].


(** The formats for which [read] and [write] take the complex columns
    apart: none given, the alias [ascii], or a name containing [ascii]. *)
Definition text_format (fmt : option string) : Prop :=
  match fmt with
  | None => True
  | Some f =>
      lower f ≠ "pickle" ∧ (lower f = "ascii" ∨ str_in "ascii" f = true)
  end.

(** The format handed to the table reader and writer. *)
Definition table_format (fmt : option string) : option string :=
  match fmt with
  | None => None
  | Some f => if bool_decide (lower f = "ascii") then Some "ascii.ecsv" else Some f
  end.


(** What the round trip through a file asks of the reader and the writer
    of a format, for a table [ts] written over the file system [fs0].
    Called the way [write] calls it, the writer stores the table: either
    it takes the option [serialize_meta], or it raises [TypeError] (or an
    exception derived from it) on the option, as the text writers do, and
    returns when it is called again without.  The reader then gives the
    table back. *)
Definition codec_gives_back
    (Table_read : string → option string → fsys → res table)
    (Table_write :
       table → string → option string → bool → fsys → res unit * fsys)
    (filename : string) (fmt : option string) (ts : table) (fs0 : fsys)
    : Prop :=
  (∃ fs', Table_write ts filename fmt true fs0 = (Ok tt, fs')
          ∧ Table_read filename fmt fs' = Ok ts)
  ∨ (∃ e fs1 fs',
       Table_write ts filename fmt true fs0 = (Raise e, fs1)
       ∧ exn_issubclass e TypeError = true
       ∧ Table_write ts filename fmt false fs1 = (Ok tt, fs')
       ∧ Table_read filename fmt fs' = Ok ts).

End Specs.

(** ** Further definitions *)

(** An action leaves the store as it found it, whether it returns or
    raises. *)
Definition ReadOnly {fsys A} (m : M fsys A) : Prop := ∀ w, (m w).2 = w.

(** An instance of [TimeSeries] whose [time] was never set. *)
Definition unset_obj : world unit := World TimeSeries_ns ∅ tt [].

(** The class after the loop of an importer over the names of the
    columns, [get] being the lookup of a column, and after its loop over
    the metadata, which passes over the keys in [skip]. *)
Definition import_from (get : string → option ndarray) (name : string)
    (names : list string) (ns : gmap string value) : gmap string value :=
  foldl (λ ns a, if decide (a = name) then ns
                 else <[a := VArray (default (ArrU [] []) (get a))]> ns)
        ns names.

Definition import_attrs (skip : list string) (attrs : dict value)
    (ns : gmap string value) : gmap string value :=
  foldl (λ ns kv, if bool_decide (kv.1 ∉ skip) then <[kv.1 := kv.2]> ns else ns)
        ns attrs.

(** A table with rows but without a [time] column, with one extra column
    that the metadata names too. *)
Definition no_time_table : table :=
  MkTable [("pi", ArrF [2] [fl 1; fl 2])] [].

Definition events_table : table :=
  MkTable [("time", ArrF [2] [fl 0; fl 1]); ("pi", ArrF [2] [fl 1; fl 2])]
          [("mjdref", VFloat (fl 55000)); ("pi", VStr "metadata wins")].

Definition events_frame : dataframe :=
  MkDataFrame 2
    [("time", ArrF [2] [fl 0; fl 1]); ("pi", ArrF [2] [fl 1; fl 2])]
    [("mjdref", VFloat (fl 55000)); ("pi", VStr "column wins")].

(** A dataset with the coordinate [time], a data variable [counts] and
    attributes. *)
Definition events_dataset : dataset :=
  MkDataset [("counts", ArrF [2] [fl 1; fl 2])]
            [("time", ArrF [2] [fl 0; fl 1])]
            [("mjdref", VFloat (fl 55000)); ("time", VStr "coordinate wins")].

(** The class [TimeSeries] alone, before any import. *)
Definition class_only : world unit := World TimeSeries_ns ∅ tt [].

(** The store with another file system. *)
Definition set_files {fsys} (fs : fsys) (w : world fsys) : world fsys :=
  World (klass w) (inst w) fs (warnings w).

(** An action leaves a component [proj] of the store as it found it. *)
Definition Keeps {fsys A X} (proj : world fsys → X) (m : M fsys A) : Prop :=
  ∀ w, proj (m w).2 = proj w.

(** A format that is neither [pickle] nor taken for text by [read] and
    [write]. *)
Definition binary_format (f : string) : Prop :=
  lower f ≠ "pickle" ∧ lower f ≠ "ascii" ∧ str_in "ascii" f = false.

(** The name of a column is not that of a half of a complex column. *)
Definition not_a_half (col : string) : Prop :=
  endswith col ".real" = false ∧ endswith col ".imag" = false.

(** [col.replace(".real", "").replace(".imag", "")] *)
Definition strip_halves (col : string) : string :=
  replace (replace col ".real" "") ".imag" "".

(** What [read] makes of a real part [x] found first and an imaginary
    part [y] found next: [(x + 0j) + (y * 1j + 0j)]. *)
Definition merge_halves (x y : float64) : complex128 :=
  cadd (cadd (of_real x) j0) (cadd (cmul (of_real y) j1) j0).

(** A writer that, like the text writers, does not know the option
    [serialize_meta] and raises [TypeError] when it is given. *)
Definition strict_Table_write (ts : table) (filename : string)
    (fmt : option string) (serialize_meta : bool) (fs : MemFS.fsys)
    : res unit * MemFS.fsys :=
  if serialize_meta then (Raise TypeError, fs)
  else (Ok tt, <[filename := MemFS.FTable ts]> fs).

(** The event list [events_obj] beside an empty in-memory file system. *)
Definition events_mem : world MemFS.fsys :=
  World TimeSeries_ns (inst events_obj) ∅ [].

(** A table with a complex column whose first item is a real number. *)
Definition leading_real_table : table :=
  MkTable [("time", ArrF [2] [fl 0; fl 1]); ("z", ArrC [2] [cx 1 0; cx 3 (-4)])]
          [].

(** A table of two real columns. *)
Definition plain_table : table :=
  MkTable [("time", ArrF [2] [fl 0; fl 1]); ("pi", ArrF [2] [fl 1; fl 2])] [].

(** An object whose main attribute is [None]. *)
Definition none_obj : world unit :=
  World TimeSeries_ns
    (list_to_map [("time", VNone); ("mjdref", VFloat (fl 55000))]) tt [].

(** Representations without rows: a table, a data frame, and a dataset
    whose coordinate [time] and data variable [counts] are empty arrays. *)
Definition zero_row_table : table :=
  MkTable [("time", ArrF [0] [])] [("mjdref", VFloat (fl 55000))].

Definition zero_row_frame : dataframe :=
  MkDataFrame 0 [("time", ArrF [0] [])] [("mjdref", VFloat (fl 55000))].

Definition zero_row_dataset : dataset :=
  MkDataset [("counts", ArrF [0] [])] [("time", ArrF [0] [])]
            [("mjdref", VFloat (fl 55000))].

(** A dataset of two rows all of whose variables are coordinates. *)
Definition coords_only_dataset : dataset :=
  MkDataset [] [("time", ArrF [2] [fl 0; fl 1]); ("pi", ArrF [2] [fl 1; fl 2])]
            [("mjdref", VFloat (fl 55000))].

(** * Properties *)

(** ** The monad, the loops and [dir] *)

Section MonadFacts.

Context {fsys : Type}.
Local Abbreviation M := (M fsys).
Implicit Types (w : world fsys) (ns : gmap string value).

Lemma bind_ok {A B} (m : M A) (k : A → M B) w a w' :
  m w = (Ok a, w') → bind m k w = k a w'.
Proof. unfold bind. by intros ->. Qed.

Lemma bind_raise {A B} (m : M A) (k : A → M B) w e w' :
  m w = (Raise e, w') → bind m k w = (Raise e, w').
Proof. unfold bind. by intros ->. Qed.

Lemma getattr_self_ok w name v :
  view w !! name = Some v → getattr_self name w = (Ok v, w).
Proof. unfold getattr_self. by intros ->. Qed.

Lemma getattr_cls_ok (w : world fsys) name v :
  klass w !! name = Some v → getattr_cls name w = (Ok v, w).
Proof. unfold getattr_cls. by intros ->. Qed.

(** A filter whose test only reads the store is the filter of lists. *)
Lemma filterM_pure {A} (p : A → M bool) (P : A → Prop)
    `{!∀ x, Decision (P x)} (l : list A) w :
  (∀ x, x ∈ l → p x w = (Ok (bool_decide (P x)), w)) →
  filterM p l w = (Ok (filter P l), w).
Proof.
  induction l as [|x l IH]; intros Hp; [done|].
  cbn [filterM].
  rewrite (bind_ok _ _ _ _ _ (Hp x ltac:(left))).
  rewrite (bind_ok _ _ _ _ _ (IH (λ y Hy, Hp y ltac:(by right)))).
  unfold ret. rewrite filter_cons.
  destruct (decide (P x)) as [HP|HP].
  - by rewrite bool_decide_eq_true_2.
  - by rewrite bool_decide_eq_false_2.
Qed.

Lemma elem_of_dir_of (ns : gmap string value) a :
  a ∈ dir_of ns ↔ is_Some (ns !! a).
Proof.
  unfold dir_of. rewrite merge_sort_Permutation, elem_of_elements.
  apply elem_of_dom.
Qed.

Lemma NoDup_dir_of (ns : gmap string value) : NoDup (dir_of ns).
Proof.
  unfold dir_of. rewrite merge_sort_Permutation. apply NoDup_elements.
Qed.

Lemma dir_self_run (w : world fsys) : dir_self w = (Ok (dir_of (view w)), w).
Proof. done. Qed.

End MonadFacts.

(** ** Dicts *)

Section DictFacts.

Context {V : Type}.
Implicit Types (d : dict V) (k : string) (v : V).

Lemma dict_get_set d k v k' :
  dict_get (dict_set d k v) k' = if decide (k = k') then Some v else dict_get d k'.
Proof.
  induction d as [|[k0 v0] d IH]; simpl.
  - done.
  - destruct (decide (k0 = k)) as [->|Hne]; simpl.
    + by destruct (decide (k = k')).
    + rewrite IH. destruct (decide (k0 = k')) as [->|]; [|done].
      by rewrite decide_False.
Qed.

Lemma dict_get_None d k : dict_get d k = None ↔ k ∉ dict_keys d.
Proof.
  unfold dict_keys. induction d as [|[k0 v0] d IH]; simpl.
  - split; [intros _; apply not_elem_of_nil | done].
  - rewrite not_elem_of_cons. destruct (decide (k0 = k)) as [->|Hne].
    + split; [done | by intros [? _]].
    + rewrite IH. split; [intros ?; split; [congruence | done] | by intros [_ ?]].
Qed.

Lemma dict_get_Some_elem d k v : dict_get d k = Some v → (k, v) ∈ d.
Proof.
  induction d as [|[k0 v0] d IH]; simpl; [done|].
  destruct (decide (k0 = k)) as [->|Hne].
  - intros [= ->]. left.
  - intros H. right. by apply IH.
Qed.

Lemma dict_get_elem_NoDup d k v :
  NoDup (dict_keys d) → (k, v) ∈ d → dict_get d k = Some v.
Proof.
  unfold dict_keys. induction d as [|[k0 v0] d IH]; simpl.
  - intros _ H. by apply elem_of_nil in H.
  - intros [Hk0 Hnd]%NoDup_cons [Heq|Hin]%elem_of_cons.
    + injection Heq as Hk Hv. by rewrite decide_True, Hv.
    + rewrite decide_False; [by apply IH|].
      intros ->. apply Hk0. apply list_elem_of_fmap. by exists (k, v).
Qed.

Lemma dict_keys_set d k v :
  dict_keys (dict_set d k v)
  = if bool_decide (k ∈ dict_keys d) then dict_keys d
    else (dict_keys d ++ [k])%list.
Proof.
  unfold dict_keys. induction d as [|[k0 v0] d IH]; [done|].
  cbn [dict_set]. destruct (decide (k0 = k)) as [->|Hne]; rewrite !fmap_cons.
  - rewrite bool_decide_eq_true_2; [done | left].
  - rewrite IH. clear IH. cbn [fst]. destruct (bool_decide (k ∈ d.*1)) eqn:E.
    + rewrite bool_decide_eq_true_2; [done|].
      right. by apply bool_decide_eq_true in E.
    + rewrite bool_decide_eq_false_2; [done|].
      apply bool_decide_eq_false in E. rewrite not_elem_of_cons. naive_solver.
Qed.

Lemma NoDup_dict_keys_set d k v :
  NoDup (dict_keys d) → NoDup (dict_keys (dict_set d k v)).
Proof.
  intros Hnd. rewrite dict_keys_set. case_bool_decide as Hin; [done|].
  apply NoDup_app. split_and!; [done| |apply NoDup_singleton].
  intros x Hx ->%list_elem_of_singleton. done.
Qed.

Lemma dict_get_fill keep (g : string → V) keys d k :
  dict_get (dict_fill keep g keys d) k
  = if bool_decide (k ∈ keys) && keep k then Some (g k) else dict_get d k.
Proof.
  revert d. induction keys as [|k0 keys IH]; intros d; cbn [dict_fill].
  - rewrite bool_decide_eq_false_2; [done | apply not_elem_of_nil].
  - rewrite IH. destruct (decide (k = k0)) as [->|Hne].
    + rewrite (bool_decide_eq_true_2 (k0 ∈ k0 :: keys)); [|left].
      destruct (keep k0) eqn:Hk.
      * rewrite dict_get_set, decide_True by done.
        by destruct (bool_decide (k0 ∈ keys)).
      * by rewrite !andb_false_r.
    + assert (bool_decide (k ∈ k0 :: keys) = bool_decide (k ∈ keys)) as ->.
      { apply bool_decide_ext. rewrite elem_of_cons.
        split; [by intros [?|?] | by right]. }
      destruct (bool_decide (k ∈ keys) && keep k); [done|].
      destruct (keep k0); [|done].
      rewrite dict_get_set. by rewrite decide_False.
Qed.

Lemma NoDup_dict_keys_fill keep (g : string → V) keys d :
  NoDup (dict_keys d) → NoDup (dict_keys (dict_fill keep g keys d)).
Proof.
  revert d. induction keys as [|k0 keys IH]; intros d Hnd; simpl; [done|].
  apply IH. destruct (keep k0); [by apply NoDup_dict_keys_set | done].
Qed.

End DictFacts.

(** ** The classifier *)

Section ClassifierFacts.

Context {fsys : Type}.
Local Abbreviation M := (M fsys).
Implicit Types (w : world fsys) (ns : gmap string value).

(** Two lookups of one name give one value. *)
Local Ltac same_lookup :=
  repeat match goal with
  | H1 : ?m !! ?k = Some ?v, H2 : ?m !! ?k = Some ?v' |- _ =>
      rewrite H1 in H2; injection H2 as <-
  | H1 : ?m !! ?k = Some ?v, H2 : ?m !! ?k = None |- _ =>
      rewrite H1 in H2; discriminate H2
  end.

(** What [array_attrs] returns, and that it leaves the store alone. *)
Lemma array_attrs_run w name main_attr :
  view w !! "main_array_attr" = Some (VStr name) →
  view w !! name = Some main_attr →
  array_attrs w
  = (Ok (if is_None main_attr then []
         else filter (is_array_attr (view w) main_attr) (dir_of (view w))), w).
Proof.
  intros Hname Hmain. unfold array_attrs.
  rewrite (bind_ok _ _ _ _ _ (getattr_self_ok _ _ _ Hname)).
  cbn [as_name]. rewrite (bind_ok _ _ w name w) by done.
  rewrite (bind_ok _ _ _ _ _ (getattr_self_ok _ _ _ Hmain)).
  destruct (is_None main_attr); [done|].
  rewrite (bind_ok _ _ _ _ _ (dir_self_run w)).
  apply filterM_pure. intros a [v Hv]%elem_of_dir_of.
  rewrite (bind_ok _ _ _ _ _ (getattr_self_ok _ _ _ Hv)).
  unfold is_array_attr. destruct (isinstance_Iterable v) eqn:Hit.
  - rewrite (bind_ok _ _ _ _ _ (getattr_self_ok _ _ _ Hv)). unfold ret.
    do 2 f_equal. apply bool_decide_ext. split.
    + intros ?. by exists v.
    + intros (v' & Hv' & _ & ?). by same_lookup.
  - unfold ret. rewrite bool_decide_eq_false_2; [done|].
    intros (v' & Hv' & ? & _). same_lookup. congruence.
Qed.

(** What [meta_attrs] returns, given what [array_attrs] does. *)
Lemma meta_attrs_run w al :
  array_attrs w = (Ok al, w) →
  meta_attrs w = (Ok (filter (is_meta_attr (view w) al) (dir_of (view w))), w).
Proof.
  intros Hal. unfold meta_attrs.
  rewrite (bind_ok _ _ _ _ _ Hal).
  rewrite (bind_ok _ _ _ _ _ (dir_self_run w)).
  apply filterM_pure. intros a [v Hv]%elem_of_dir_of.
  case_bool_decide as Hin.
  - destruct (startswith_underscore a) eqn:Hu; cbn [negb].
    + unfold ret. rewrite bool_decide_eq_false_2; [done|].
      intros (_ & ? & _). congruence.
    + rewrite (bind_ok _ _ _ _ _ (getattr_self_ok _ _ _ Hv)).
      destruct (callable v) eqn:Hc; cbn [negb]; unfold ret.
      * rewrite bool_decide_eq_false_2; [done|].
        intros (_ & _ & v' & Hv' & ? & _). same_lookup. congruence.
      * do 2 f_equal. destruct (hasattr_meta_attrs v) eqn:Hm; cbn [negb].
        -- rewrite bool_decide_eq_false_2; [done|].
           intros (_ & _ & v' & Hv' & _ & ?). same_lookup. congruence.
        -- rewrite bool_decide_eq_true_2; [done|].
           split; [done|]. split; [done|]. by exists v.
  - unfold ret. rewrite bool_decide_eq_false_2; [done|].
    by intros (? & _).
Qed.

Lemma get_meta_dict_loop_run w keys d :
  (∀ k, k ∈ keys → is_Some (view w !! k)) →
  get_meta_dict_loop keys d w
  = (Ok (dict_fill (λ k, negb (is_None (default VNone (view w !! k))))
                   (λ k, default VNone (view w !! k)) keys d), w).
Proof.
  revert d. induction keys as [|k keys IH]; intros d Hk; [done|].
  cbn [get_meta_dict_loop dict_fill].
  destruct (Hk k ltac:(left)) as [v Hv].
  rewrite (bind_ok _ _ _ _ _ (getattr_self_ok _ _ _ Hv)).
  rewrite Hv. cbn [from_option]. unfold id.
  assert (∀ k', k' ∈ keys → is_Some (view w !! k')) as Hk'
    by (intros; apply Hk; by right).
  destruct (is_None v); cbn [negb]; by apply IH.
Qed.

Lemma collect_data_run w attrs d :
  (∀ a, a ∈ attrs → is_Some (view w !! a)) →
  collect_data attrs d w
  = (Ok (dict_fill (λ _, true)
                   (λ a, np_asarray (default VNone (view w !! a))) attrs d), w).
Proof.
  revert d. induction attrs as [|a attrs IH]; intros d Ha; [done|].
  cbn [collect_data dict_fill].
  destruct (Ha a ltac:(left)) as [v Hv].
  rewrite (bind_ok _ _ _ _ _ (getattr_self_ok _ _ _ Hv)).
  rewrite Hv. cbn [from_option]. unfold id. apply IH. intros; apply Ha; by right.
Qed.

End ClassifierFacts.

(** ** Attribute classification: [array_attrs], [meta_attrs], [get_meta_dict] *)

Section ClassifierClaims.

Context {fsys : Type}.
Implicit Types (w : world fsys) (ns : gmap string value).

Lemma shaped_is_iterable v : np_shape v ≠ [] → isinstance_Iterable v = true.
Proof. by destruct v. Qed.

Lemma array_attrs_lookup w name main_attr al a :
  view w !! "main_array_attr" = Some (VStr name) →
  view w !! name = Some main_attr →
  array_attrs w = (Ok al, w) → a ∈ al → is_array_attr (view w) main_attr a.
Proof.
  intros Hname Hmain Hal Ha.
  rewrite (array_attrs_run _ _ _ Hname Hmain) in Hal.
  injection Hal as <-. destruct (is_None main_attr).
  - by apply elem_of_nil in Ha.
  - by apply list_elem_of_filter in Ha as [? _].
Qed.

(** C2. [array_attrs()] returns (without touching the object) exactly the
    attribute names whose value is iterable and has, as a multi-dimensional
    shape, the shape of the main attribute's value: an iterable attribute of
    that shape is listed, an attribute of another shape is not, and when the
    main attribute has at least one dimension its shape alone decides.  If
    the main attribute is [None] the list is empty. *)
Theorem array_attrs_exact w name main_attr :
  view w !! "main_array_attr" = Some (VStr name) →
  view w !! name = Some main_attr →
  ∃ l, array_attrs w = (Ok l, w)
    ∧ NoDup l
    ∧ (main_attr = VNone → l = [])
    ∧ (main_attr ≠ VNone →
       (∀ a, a ∈ l ↔ ∃ v, view w !! a = Some v
                          ∧ isinstance_Iterable v = true
                          ∧ np_shape v = np_shape main_attr)
       ∧ (∀ a v, view w !! a = Some v → isinstance_Iterable v = true →
                 np_shape v = np_shape main_attr → a ∈ l)
       ∧ (∀ a v, view w !! a = Some v →
                 np_shape v ≠ np_shape main_attr → a ∉ l)
       ∧ (np_shape main_attr ≠ [] →
          ∀ a v, view w !! a = Some v →
                 np_shape v = np_shape main_attr → a ∈ l)).
Proof.
  intros Hname Hmain. eexists.
  split; [exact (array_attrs_run _ _ _ Hname Hmain)|].
  assert (∀ a, a ∈ filter (is_array_attr (view w) main_attr) (dir_of (view w))
               ↔ is_array_attr (view w) main_attr a) as Hin.
  { intros a. rewrite list_elem_of_filter, elem_of_dir_of.
    split; [by intros [? _] | intros H; split; [done|]].
    destruct H as (v & -> & _). by exists v. }
  split; [|split].
  - destruct (is_None main_attr); [apply NoDup_nil_2|].
    apply NoDup_filter, NoDup_dir_of.
  - by intros ->.
  - intros Hnn. assert (is_None main_attr = false) as -> by by destruct main_attr.
    split; [exact Hin|]. split; [|split].
    + intros a v Hv Hit Hsh. apply Hin. by exists v.
    + intros a v Hv Hsh (v' & Hv' & _ & Hsh')%Hin.
      rewrite Hv in Hv'. injection Hv' as <-. done.
    + intros Hdim a v Hv Hsh. apply Hin. exists v. split; [done|].
      split; [|done]. apply shaped_is_iterable. by rewrite Hsh.
Qed.

(** C6. [meta_attrs()] returns (without touching the object) exactly the
    attribute names that are not array attributes, do not start with an
    underscore, and hold a value that is neither callable nor a
    StingrayObject; a nested StingrayObject is never a meta attribute. *)
Theorem meta_attrs_exact w name main_attr :
  view w !! "main_array_attr" = Some (VStr name) →
  view w !! name = Some main_attr →
  ∃ al ml, array_attrs w = (Ok al, w) ∧ meta_attrs w = (Ok ml, w)
    ∧ NoDup ml
    ∧ (∀ a, a ∈ ml ↔ (a ∉ al) ∧ startswith_underscore a = false
                      ∧ ∃ v, view w !! a = Some v ∧ callable v = false
                             ∧ hasattr_meta_attrs v = false)
    ∧ (∀ a, view w !! a = Some VStingray → a ∉ ml).
Proof.
  intros Hname Hmain.
  pose proof (array_attrs_run _ _ _ Hname Hmain) as Hal.
  eexists _, _. split; [exact Hal|]. split; [by apply meta_attrs_run|].
  match goal with |- NoDup ?l ∧ _ => set (ml := l) end.
  assert (∀ a, a ∈ ml ↔ is_meta_attr (view w)
            (if is_None main_attr then []
             else filter (is_array_attr (view w) main_attr) (dir_of (view w))) a)
    as Hin.
  { intros a. unfold ml. rewrite list_elem_of_filter, elem_of_dir_of.
    split; [by intros [? _] | intros H; split; [done|]].
    destruct H as (_ & _ & v & -> & _). by exists v. }
  split; [apply NoDup_filter, NoDup_dir_of|]. split; [exact Hin|].
  intros a Hv (_ & _ & v & Hv' & _ & Hm)%Hin.
  rewrite Hv in Hv'. by injection Hv' as <-.
Qed.

Lemma meta_attrs_present w al ml k :
  array_attrs w = (Ok al, w) → meta_attrs w = (Ok ml, w) →
  k ∈ ml → is_Some (view w !! k).
Proof.
  intros Hal Hml Hk. rewrite (meta_attrs_run _ _ Hal) in Hml.
  injection Hml as <-. apply list_elem_of_filter in Hk as [_ Hk].
  by apply elem_of_dir_of.
Qed.

Lemma get_meta_dict_run w al ml :
  array_attrs w = (Ok al, w) → meta_attrs w = (Ok ml, w) →
  get_meta_dict w
  = (Ok (dict_fill (λ k, negb (is_None (default VNone (view w !! k))))
                   (λ k, default VNone (view w !! k)) ml []), w).
Proof.
  intros Hal Hml. unfold get_meta_dict. rewrite (bind_ok _ _ _ _ _ Hml).
  apply get_meta_dict_loop_run. intros k. by apply meta_attrs_present with al.
Qed.

(** C7. [get_meta_dict()] returns a dict and leaves the object as it was;
    the dict holds [k: v] exactly when [k] is a meta attribute whose value
    [v] is not [None], so no key of it has the value [None].  Said of the
    attributes of the object: it holds [k: v] exactly when [v], the value
    of the attribute [k], is not [None], not callable and not a
    StingrayObject, [k] does not start with an underscore, and [v] is not
    an array attribute (an iterable of the shape of a main attribute that
    is not [None]). *)
Theorem get_meta_dict_exact w name main_attr :
  view w !! "main_array_attr" = Some (VStr name) →
  view w !! name = Some main_attr →
  ∃ ml d, meta_attrs w = (Ok ml, w) ∧ get_meta_dict w = (Ok d, w)
    ∧ (∀ k v, dict_get d k = Some v
              ↔ k ∈ ml ∧ view w !! k = Some v ∧ v ≠ VNone)
    ∧ (∀ k v, (k, v) ∈ d → v ≠ VNone)
    ∧ NoDup (dict_keys d)
    ∧ (∀ k v, dict_get d k = Some v
              ↔ view w !! k = Some v ∧ v ≠ VNone
                ∧ startswith_underscore k = false
                ∧ callable v = false ∧ hasattr_meta_attrs v = false
                ∧ ¬ (main_attr ≠ VNone ∧ isinstance_Iterable v = true
                     ∧ np_shape v = np_shape main_attr)).
Proof.
  intros Hname Hmain.
  pose proof (array_attrs_run _ _ _ Hname Hmain) as Hal.
  pose proof (meta_attrs_run _ _ Hal) as Hml.
  eexists _, _. split; [exact Hml|].
  split; [exact (get_meta_dict_run _ _ _ Hal Hml)|].
  match goal with |- context [dict_fill ?kp ?g ?l []] =>
    set (keep := kp); set (val := g); set (ml := l) in * end.
  assert (∀ k v, dict_get (dict_fill keep val ml []) k = Some v
                 ↔ k ∈ ml ∧ view w !! k = Some v ∧ v ≠ VNone) as Hget.
  { intros k v. rewrite dict_get_fill. unfold keep, val. cbn [dict_get].
    case_bool_decide as Hk; cbn [andb].
    - destruct (meta_attrs_present _ _ _ _ Hal Hml Hk) as [v' Hv'].
      rewrite Hv'. cbn [from_option]. unfold id.
      destruct (is_None v') eqn:Hn; cbn [negb].
      + split; [done|]. intros (_ & [= ->] & Hnn). by destruct v.
      + split.
        * intros [= ->]. split_and!; [done..|]. by intros ->.
        * by intros (_ & [= ->] & _).
    - split; [done | by intros [? _]]. }
  assert (NoDup (dict_keys (dict_fill keep val ml []))) as Hnd
    by apply NoDup_dict_keys_fill, NoDup_nil_2.
  split; [exact Hget|]. split; [|split; [exact Hnd|]].
  { intros k v Hkv.
    by apply (dict_get_elem_NoDup _ _ _ Hnd), Hget in Hkv as (_ & _ & ?). }
  intros k v. rewrite Hget. unfold ml.
  rewrite list_elem_of_filter, elem_of_dir_of. unfold is_meta_attr.
  split.
  - intros (((Hna & Hu & v' & Hv' & Hc & Hm) & _) & Hv & Hnn).
    rewrite Hv in Hv'. injection Hv' as <-.
    split_and!; [done..|]. intros (Hmn & Hit & Hsh). apply Hna.
    assert (is_None main_attr = false) as -> by by destruct main_attr.
    apply list_elem_of_filter. split; [by exists v | by apply elem_of_dir_of].
  - intros (Hv & Hnn & Hu & Hc & Hm & Hnarr).
    split; [|done]. split; [|by rewrite Hv].
    split; [|split; [done | by exists v]].
    destruct (is_None main_attr) eqn:HN; [apply not_elem_of_nil|].
    intros [(v' & Hv' & Hit & Hsh) _]%list_elem_of_filter.
    rewrite Hv in Hv'. injection Hv' as <-. apply Hnarr.
    split; [by intros -> | done].
Qed.

(** C9. [__init__] raises [RuntimeError] when [main_array_attr] is not an
    attribute of the object under construction, in particular when the
    class of a fresh instance does not declare it, and it returns only
    when the attribute is there. *)
Theorem init_needs_main_array_attr w :
  __init__ w
  = (if bool_decide (is_Some (view w !! "main_array_attr"))
     then Ok tt else Raise RuntimeError, w)
  ∧ (is_Some (view w !! "main_array_attr") ↔ __init__ w = (Ok tt, w))
  ∧ (inst w = ∅ → klass w !! "main_array_attr" = None →
     __init__ w = (Raise RuntimeError, w))
  ∧ (is_Some (klass w !! "main_array_attr") → __init__ w = (Ok tt, w)).
Proof.
  assert (__init__ w
          = (if bool_decide (is_Some (view w !! "main_array_attr"))
             then Ok tt else Raise RuntimeError, w)) as Hrun.
  { unfold __init__, hasattr_self, bind, ret, raise. by case_bool_decide. }
  split; [exact Hrun|]. rewrite Hrun. split; [|split].
  - case_bool_decide; split; [done|done|done|discriminate].
  - intros Hi Hk. rewrite bool_decide_eq_false_2; [done|].
    unfold view. rewrite Hi, (left_id_L ∅ (∪)), Hk. by intros [? ?].
  - intros [v Hk]. rewrite bool_decide_eq_true_2; [done|].
    unfold view. destruct (inst w !! "main_array_attr") as [v'|] eqn:Hi.
    + exists v'. by apply lookup_union_Some_l.
    + exists v. rewrite lookup_union_r; done.
Qed.

End ClassifierClaims.

(** ** Export to and import from tables *)

Section TableFacts.

Context {fsys : Type}.
Implicit Types (w : world fsys) (ns : gmap string value) (ts : table).

Lemma set_klass_id w : set_klass (klass w) w = w.
Proof. by destruct w. Qed.

Lemma setattr_cls_run w k v :
  setattr_cls k v w = (Ok tt, set_klass (<[k := v]> (klass w)) w).
Proof. done. Qed.

(** [Table(data)] is [data] when every column has the same first
    dimension. *)
Lemma Table_ok (data : dict ndarray) n :
  (∀ k a, (k, a) ∈ data → leading_dim a = Some n) →
  Table data = Ok (MkTable data []).
Proof.
  intros Hdim. destruct data as [|[k a] data]; [done|].
  cbn [Table]. rewrite (Hdim k a) by left.
  rewrite bool_decide_eq_true_2; [done|].
  apply Forall_forall. intros [k' a'] Hin. by apply Hdim in Hin.
Qed.

Lemma Table_columns (data : dict ndarray) ts :
  Table data = Ok ts → columns ts = data ∧ meta ts = [].
Proof.
  destruct data as [|[k a] data]; cbn [Table].
  - by intros [= <-].
  - destruct (leading_dim a); [|done]. case_bool_decide; [|done].
    by intros [= <-].
Qed.


(** The loop of the importers over the metadata. *)
Lemma forM_setattr_meta (l : dict value) w :
  forM_ l (λ kv, setattr_cls kv.1 kv.2) w
  = (Ok tt, set_klass (foldl (λ ns kv, <[kv.1 := kv.2]> ns) (klass w) l) w).
Proof.
  revert w. induction l as [|[k v] l IH]; intros w.
  - cbn [forM_ foldl]. by rewrite set_klass_id.
  - cbn [forM_ foldl fst snd].
    rewrite (bind_ok _ _ _ _ _ (setattr_cls_run w k v)). by rewrite IH.
Qed.

Lemma foldl_insert_meta_lookup (l : dict value) ns k :
  NoDup (dict_keys l) →
  foldl (λ ns kv, <[kv.1 := kv.2]> ns) ns l !! k
  = match dict_get l k with Some v => Some v | None => ns !! k end.
Proof.
  unfold dict_keys. revert ns.
  induction l as [|[k0 v0] l IH]; intros ns Hnd; [done|].
  rewrite fmap_cons in Hnd. apply NoDup_cons in Hnd as [Hk0 Hnd].
  cbn [foldl dict_get fst snd]. rewrite (IH _ Hnd).
  destruct (decide (k0 = k)) as [->|Hne].
  - apply (dict_get_None l k) in Hk0. by rewrite Hk0, lookup_insert_eq.
  - by rewrite lookup_insert_ne.
Qed.

Lemma import_columns_lookup cols name names ns k :
  import_columns cols name names ns !! k
  = if bool_decide (k ∈ names ∧ k ≠ name)
    then Some (VArray (default (ArrU [] []) (dict_get cols k)))
    else ns !! k.
Proof.
  unfold import_columns. revert ns.
  induction names as [|a names IH]; intros ns; cbn [foldl].
  - rewrite bool_decide_eq_false_2; [done|]. intros [[]%elem_of_nil _].
  - rewrite IH. destruct (decide (k ∈ names ∧ k ≠ name)) as [[Hin Hne]|Hn].
    + rewrite !bool_decide_eq_true_2; [done| |done].
      split; [by right | done].
    + rewrite (bool_decide_eq_false_2 _ Hn).
      destruct (decide (a = name)) as [->|Hne].
      * rewrite bool_decide_eq_false_2; [done|].
        intros [[->|Hin]%elem_of_cons Hk]; [done|]. by apply Hn.
      * destruct (decide (k = a)) as [->|Hka].
        -- rewrite lookup_insert_eq, bool_decide_eq_true_2; [done|].
           split; [left | done].
        -- rewrite lookup_insert_ne by done.
           rewrite bool_decide_eq_false_2; [done|].
           intros [[->|Hin]%elem_of_cons Hk]; [done|]. by apply Hn.
Qed.

Lemma forM_setattr_columns ts name names w :
  klass w !! "main_array_attr" = Some (VStr name) →
  "main_array_attr" ∉ names →
  (∀ a, a ∈ names → is_Some (dict_get (columns ts) a)) →
  forM_ names (λ attr,
    n <- getattr_cls "main_array_attr" ;;
    if bool_decide (VStr attr = n) then ret tt
    else
      a <- lift (from_option Ok (Raise KeyError) (dict_get (columns ts) attr)) ;;
      setattr_cls attr (VArray a)) w
  = (Ok tt, set_klass (import_columns (columns ts) name names (klass w)) w).
Proof.
  unfold import_columns. revert w.
  induction names as [|a names IH]; intros w Hmain Hnot Hcols.
  - cbn [forM_ foldl]. by rewrite set_klass_id.
  - apply not_elem_of_cons in Hnot as [Hne Hnot].
    assert (∀ a', a' ∈ names → is_Some (dict_get (columns ts) a')) as Hcols'
      by (intros; apply Hcols; by right).
    destruct (Hcols a ltac:(left)) as [arr Harr].
    cbn [forM_ foldl].
    rewrite (bind_ok _ _ w tt
               (set_klass (if decide (a = name) then klass w
                           else <[a := VArray arr]> (klass w)) w)).
    + rewrite IH; [|by (cbn [set_klass klass]; destruct (decide (a = name));
                         [|rewrite lookup_insert_ne])|done..].
      cbn [set_klass klass inst files warnings]. by rewrite Harr.
    + rewrite (bind_ok _ _ _ _ _ (getattr_cls_ok _ _ _ Hmain)).
      destruct (decide (a = name)) as [->|Hn].
      * rewrite bool_decide_eq_true_2 by done. unfold ret.
        by rewrite set_klass_id.
      * rewrite bool_decide_eq_false_2 by congruence.
        rewrite Harr. cbn [from_option]. by rewrite (bind_ok _ _ w arr w).
Qed.

(** What [from_astropy_table] does with a table that has rows. *)
Lemma from_astropy_table_run ts name mainarray w :
  table_len ts ≠ 0 →
  klass w !! "main_array_attr" = Some (VStr name) →
  "main_array_attr" ∉ colnames ts →
  dict_get (columns ts) name = Some mainarray →
  from_astropy_table ts w
  = (Ok Cls,
     set_klass
       (foldl (λ ns kv, <[kv.1 := kv.2]> ns)
          (import_columns (columns ts) name (colnames ts)
             (<[name := VArray mainarray]> (klass w)))
          (meta ts)) w).
Proof.
  intros Hlen Hmain Hnot Hcol. unfold from_astropy_table.
  rewrite bool_decide_eq_false_2 by done.
  rewrite (bind_ok _ _ _ _ _ (getattr_cls_ok _ _ _ Hmain)).
  cbn [as_name]. rewrite (bind_ok _ _ w name w) by done.
  rewrite Hcol. cbn [from_option]. rewrite (bind_ok _ _ w mainarray w) by done.
  rewrite (bind_ok _ _ _ _ _ (setattr_cls_run _ _ _)).
  assert (name ≠ "main_array_attr") as Hne.
  { intros ->. apply Hnot.
    destruct (decide ("main_array_attr" ∈ colnames ts)) as [|Hn]; [done|].
    apply dict_get_None in Hn. congruence. }
  assert (∀ a, a ∈ colnames ts → is_Some (dict_get (columns ts) a)) as Hall.
  { intros a Ha. destruct (dict_get (columns ts) a) eqn:E; [done|].
    by apply dict_get_None in E. }
  set (w1 := set_klass (<[name := VArray mainarray]> (klass w)) w).
  assert (klass w1 !! "main_array_attr" = Some (VStr name)) as Hmain1.
  { unfold w1. cbn [set_klass klass]. by rewrite lookup_insert_ne. }
  rewrite (bind_ok _ _ _ _ _
    (forM_setattr_columns ts name (colnames ts) w1 Hmain1 Hnot Hall)).
  rewrite (bind_ok _ _ _ _ _ (forM_setattr_meta _ _)). done.
Qed.

End TableFacts.

Section TableClaims.

Context {fsys : Type}.
Implicit Types (w : world fsys) (ns : gmap string value) (ts : table).


(** What [to_astropy_table] returns, and that it leaves the store alone. *)
Lemma to_astropy_table_run w al ml :
  array_attrs w = (Ok al, w) →
  (∀ a, a ∈ al → is_Some (view w !! a)) →
  meta_attrs w = (Ok ml, w) →
  to_astropy_table w
  = (match Table (export_data (view w) al) with
     | Ok ts =>
         Ok (MkTable (columns ts)
               (dict_update (meta ts) (export_meta (view w) ml)))
     | Raise e => Raise e
     end, w).
Proof.
  intros Hal Hin Hml. unfold to_astropy_table, export_data, export_meta.
  rewrite (bind_ok _ _ _ _ _ Hal).
  rewrite (bind_ok _ _ _ _ _ (collect_data_run _ _ _ Hin)).
  match goal with |- context [Table ?d] =>
    destruct (Table d) as [ts|e] eqn:HT end.
  - rewrite (bind_ok _ _ w ts w) by done.
    by rewrite (bind_ok _ _ _ _ _ (get_meta_dict_run _ _ _ Hal Hml)).
  - by rewrite (bind_raise _ _ w e w) by done.
Qed.

Lemma export_data_get ns al a :
  dict_get (export_data ns al) a
  = if bool_decide (a ∈ al) then Some (np_asarray (default VNone (ns !! a)))
    else None.
Proof.
  unfold export_data. rewrite dict_get_fill. cbn [dict_get].
  by rewrite andb_true_r.
Qed.

Lemma export_meta_get ns ml k :
  dict_get (export_meta ns ml) k
  = if bool_decide (k ∈ ml) && negb (is_None (default VNone (ns !! k)))
    then Some (default VNone (ns !! k)) else None.
Proof. unfold export_meta. by rewrite dict_get_fill. Qed.

Lemma NoDup_export_data ns al : NoDup (dict_keys (export_data ns al)).
Proof. apply NoDup_dict_keys_fill, NoDup_nil_2. Qed.

Lemma NoDup_export_meta ns ml : NoDup (dict_keys (export_meta ns ml)).
Proof. apply NoDup_dict_keys_fill, NoDup_nil_2. Qed.

Lemma elem_of_dict_keys {V} (d : dict V) k :
  k ∈ dict_keys d ↔ is_Some (dict_get d k).
Proof.
  destruct (dict_get d k) as [v|] eqn:E.
  - split; [by eauto|intros _].
    destruct (decide (k ∈ dict_keys d)) as [|Hn]; [done|].
    apply dict_get_None in Hn. congruence.
  - split; [|by intros [? ?]]. intros Hin. by apply dict_get_None in E.
Qed.

(** The guard of the importers: given a representation of length zero
    they hand back the class as it is, with no attribute set on it.  The
    length is the number of rows of a table and of a data frame, and the
    number of data variables of a dataset. *)
Lemma importers_empty w :
  (∀ ts, table_len ts = 0 → from_astropy_table ts w = (Ok Cls, w))
  ∧ (∀ ds, dataset_len ds = 0 → from_xarray ds w = (Ok Cls, w))
  ∧ (∀ df, dataframe_len df = 0 → from_pandas df w = (Ok Cls, w)).
Proof.
  split; [|split].
  - intros ts Hlen. unfold from_astropy_table.
    by rewrite bool_decide_eq_true_2.
  - intros ds Hlen. unfold from_xarray. by rewrite bool_decide_eq_true_2.
  - intros df Hlen. unfold from_pandas. by rewrite bool_decide_eq_true_2.
Qed.

Lemma to_xarray_run Dataset w al ml :
  array_attrs w = (Ok al, w) →
  (∀ a, a ∈ al → is_Some (view w !! a)) →
  meta_attrs w = (Ok ml, w) →
  to_xarray Dataset w
  = (match Dataset (export_data (view w) al) with
     | Ok ts =>
         Ok (MkDataset (data_vars ts) (coords ts)
               (dict_update (ds_attrs ts) (export_meta (view w) ml)))
     | Raise e => Raise e
     end, w).
Proof.
  intros Hal Hin Hml. unfold to_xarray, export_data, export_meta.
  rewrite (bind_ok _ _ _ _ _ Hal).
  rewrite (bind_ok _ _ _ _ _ (collect_data_run _ _ _ Hin)).
  match goal with |- context [Dataset ?d] =>
    destruct (Dataset d) as [ts|e] eqn:HT end.
  - rewrite (bind_ok _ _ w ts w) by done.
    by rewrite (bind_ok _ _ _ _ _ (get_meta_dict_run _ _ _ Hal Hml)).
  - by rewrite (bind_raise _ _ w e w) by done.
Qed.

Lemma to_pandas_run DataFrame w al ml :
  array_attrs w = (Ok al, w) →
  (∀ a, a ∈ al → is_Some (view w !! a)) →
  meta_attrs w = (Ok ml, w) →
  to_pandas DataFrame w
  = (match DataFrame (export_data (view w) al) with
     | Ok ts =>
         Ok (MkDataFrame (df_rows ts) (df_columns ts)
               (dict_update (df_attrs ts) (export_meta (view w) ml)))
     | Raise e => Raise e
     end, w).
Proof.
  intros Hal Hin Hml. unfold to_pandas, export_data, export_meta.
  rewrite (bind_ok _ _ _ _ _ Hal).
  rewrite (bind_ok _ _ _ _ _ (collect_data_run _ _ _ Hin)).
  match goal with |- context [DataFrame ?d] =>
    destruct (DataFrame d) as [ts|e] eqn:HT end.
  - rewrite (bind_ok _ _ w ts w) by done.
    by rewrite (bind_ok _ _ _ _ _ (get_meta_dict_run _ _ _ Hal Hml)).
  - by rewrite (bind_raise _ _ w e w) by done.
Qed.

(** The keys of [data] are the array attributes, in their order. *)
Lemma dict_keys_fill_all {V} (g : string → V) keys (d : dict V) :
  NoDup keys → (∀ k, k ∈ keys → k ∉ dict_keys d) →
  dict_keys (dict_fill (λ _, true) g keys d) = (dict_keys d ++ keys)%list.
Proof.
  revert d. induction keys as [|k keys IH]; intros d Hnd Hdisj.
  - cbn [dict_fill]. by rewrite app_nil_r.
  - apply NoDup_cons in Hnd as [Hk Hnd]. cbn [dict_fill].
    assert (dict_keys (dict_set d k (g k)) = (dict_keys d ++ [k])%list) as Hset.
    { rewrite dict_keys_set, bool_decide_eq_false_2; [done|].
      apply Hdisj. left. }
    rewrite IH, Hset; [by rewrite <- app_assoc|done|].
    intros k' Hk'. rewrite Hset. rewrite elem_of_app, list_elem_of_singleton.
    intros [Hin| ->]; [|done]. revert Hin. apply Hdisj. by right.
Qed.

Lemma dict_keys_export_data ns al :
  NoDup al → dict_keys (export_data ns al) = al.
Proof.
  intros Hnd. unfold export_data. rewrite dict_keys_fill_all; [done..|].
  intros k _. apply not_elem_of_nil.
Qed.

(** C10. When the value of the main attribute is an iterable other than
    [None], [array_attrs()] lists the main attribute's own name.  The
    [data] every exporter builds its container from has the array
    attributes as keys, with the main array under the main attribute's
    name; the table [to_astropy_table] returns has a column of that name;
    and it does return one when the main attribute has at least one
    dimension. *)
Theorem main_attr_is_array_attr w name main_attr :
  view w !! "main_array_attr" = Some (VStr name) →
  view w !! name = Some main_attr →
  main_attr ≠ VNone →
  isinstance_Iterable main_attr = true →
  ∃ l data md,
    array_attrs w = (Ok l, w) ∧ name ∈ l
    ∧ dict_keys data = l
    ∧ dict_get data name = Some (np_asarray main_attr)
    ∧ to_astropy_table w
      = (match Table data with
         | Ok ts => Ok (MkTable (columns ts) (dict_update (meta ts) md))
         | Raise e => Raise e
         end, w)
    ∧ (∀ Dataset,
         to_xarray Dataset w
         = (match Dataset data with
            | Ok ts => Ok (MkDataset (data_vars ts) (coords ts)
                             (dict_update (ds_attrs ts) md))
            | Raise e => Raise e
            end, w))
    ∧ (∀ DataFrame,
         to_pandas DataFrame w
         = (match DataFrame data with
            | Ok ts => Ok (MkDataFrame (df_rows ts) (df_columns ts)
                             (dict_update (df_attrs ts) md))
            | Raise e => Raise e
            end, w))
    ∧ (∀ ts w', to_astropy_table w = (Ok ts, w') → name ∈ colnames ts)
    ∧ (np_shape main_attr ≠ [] →
       ∃ ts, to_astropy_table w = (Ok ts, w)
             ∧ dict_get (columns ts) name = Some (np_asarray main_attr)).
Proof.
  intros Hname Hmain Hnn Hit.
  pose proof (array_attrs_run _ _ _ Hname Hmain) as Hal.
  pose proof (meta_attrs_run _ _ Hal) as Hml.
  assert (is_None main_attr = false) as HN by by destruct main_attr.
  rewrite HN in Hal, Hml.
  set (al := filter (is_array_attr (view w) main_attr) (dir_of (view w))) in *.
  set (ml := filter (is_meta_attr (view w) al) (dir_of (view w))) in *.
  assert (∀ a, a ∈ al → is_array_attr (view w) main_attr a) as Harr.
  { intros a Ha. by apply list_elem_of_filter in Ha as [? _]. }
  assert (name ∈ al) as Hin.
  { apply list_elem_of_filter. split; [by exists main_attr|].
    by apply elem_of_dir_of. }
  assert (∀ a, a ∈ al → is_Some (view w !! a)) as Hsome.
  { intros a (v & -> & _)%Harr. by eexists. }
  pose proof (to_astropy_table_run _ _ _ Hal Hsome Hml) as Hrun.
  assert (dict_get (export_data (view w) al) name
          = Some (np_asarray main_attr)) as Hget.
  { rewrite export_data_get, bool_decide_eq_true_2 by done. by rewrite Hmain. }
  exists al, (export_data (view w) al), (export_meta (view w) ml).
  split; [done|]. split; [done|].
  split; [apply dict_keys_export_data, NoDup_filter, NoDup_dir_of|].
  split; [done|]. split; [done|].
  split; [intros Dataset; by apply to_xarray_run|].
  split; [intros DataFrame; by apply to_pandas_run|]. split.
  - intros ts w' Hts. rewrite Hrun in Hts.
    destruct (Table (export_data (view w) al)) as [ts0|] eqn:HT; [|done].
    injection Hts as <- _. apply Table_columns in HT as [HT _].
    unfold colnames. cbn [columns]. rewrite HT.
    apply elem_of_dict_keys. by rewrite Hget.
  - intros Hdim. destruct (np_shape main_attr) as [|n sh] eqn:Hsh; [done|].
    rewrite Hrun, (Table_ok _ n).
    + eexists. split; [done|]. by cbn [columns].
    + intros k a Hka.
      apply (dict_get_elem_NoDup _ _ _ (NoDup_export_data _ _)) in Hka.
      rewrite export_data_get in Hka. case_bool_decide as Hk; [|done].
      injection Hka as <-. apply Harr in Hk as (v & -> & _ & Hv).
      cbn [from_option]. unfold id, leading_dim.
      fold (np_shape v). by rewrite Hv, Hsh.
Qed.

End TableClaims.

Section RoundTrip.

Context {fsys : Type}.
Implicit Types (w : world fsys) (ns : gmap string value) (ts : table).


End RoundTrip.


(** ** The log of warnings

    Nothing but [warn] looks at the log or adds to it. *)

Section Warnings.

Context {fsys : Type}.
Local Abbreviation M := (M fsys).
Implicit Types (w : world fsys).

Lemma WInd_ret {A} (a : A) : WInd (fsys := fsys) (ret a).
Proof. done. Qed.

Lemma WInd_raise {A} e : WInd (fsys := fsys) (raise (A := A) e).
Proof. done. Qed.

Lemma WInd_lift {A} (r : res A) : WInd (fsys := fsys) (lift r).
Proof. done. Qed.

Lemma WInd_bind {A B} (m : M A) (k : A → M B) :
  WInd m → (∀ a, WInd (k a)) → WInd (bind m k).
Proof.
  intros Hm Hk ws w. unfold bind. rewrite Hm.
  destruct (m w) as [[a|e] w']; cbn [fst snd]; [apply Hk | done].
Qed.

Lemma WInd_getattr_self name : WInd (fsys := fsys) (getattr_self name).
Proof.
  intros ws w. unfold getattr_self.
  change (view (set_warnings ws w)) with (view w).
  by destruct (view w !! name).
Qed.

Lemma WInd_getattr_cls name : WInd (fsys := fsys) (getattr_cls name).
Proof.
  intros ws w. unfold getattr_cls.
  change (klass (set_warnings ws w)) with (klass w).
  by destruct (klass w !! name).
Qed.

Lemma WInd_setattr_cls name v : WInd (fsys := fsys) (setattr_cls name v).
Proof. done. Qed.

Lemma WInd_as_name n : WInd (fsys := fsys) (as_name n).
Proof. by destruct n. Qed.

Lemma WInd_hasattr_self name : WInd (fsys := fsys) (hasattr_self name).
Proof. done. Qed.

Lemma WInd_dir_self : WInd (fsys := fsys) dir_self.
Proof. done. Qed.

Lemma WInd_self_dict : WInd (fsys := fsys) self_dict.
Proof. done. Qed.

Lemma WInd_read_files {A} (f : fsys → res A) : WInd (read_files f).
Proof. done. Qed.

Lemma WInd_write_files {A} (f : fsys → res A * fsys) : WInd (write_files f).
Proof.
  intros ws w. unfold write_files.
  change (files (set_warnings ws w)) with (files w).
  by destruct (f (files w)).
Qed.

Lemma WInd_try_except {A} (m h : M A) e :
  WInd m → WInd h → WInd (try_except m e h).
Proof.
  intros Hm Hh ws w. unfold try_except. rewrite Hm.
  destruct (m w) as [[a|e'] w']; cbn [fst snd]; [done|].
  destruct (exn_issubclass e' e); [apply Hh | done].
Qed.

Lemma WInd_filterM {A} (p : A → M bool) l :
  (∀ x, WInd (p x)) → WInd (filterM p l).
Proof.
  intros Hp. induction l as [|x l IH]; [done|].
  cbn [filterM]. apply WInd_bind; [done|]. intros b.
  apply WInd_bind; [done|]. intros r. apply WInd_ret.
Qed.

Lemma WInd_forM_ {A} (f : A → M unit) l :
  (∀ x, WInd (f x)) → WInd (forM_ l f).
Proof.
  intros Hf. induction l as [|x l IH]; [done|].
  cbn [forM_]. by apply WInd_bind.
Qed.

End Warnings.

Create HintDb wind.
#[export] Hint Resolve WInd_ret WInd_raise WInd_lift WInd_getattr_self
  WInd_getattr_cls WInd_setattr_cls WInd_as_name WInd_hasattr_self
  WInd_dir_self WInd_self_dict WInd_read_files WInd_write_files : wind.

(** Break an action down to the primitives above. *)
Ltac wind :=
  repeat first
    [ progress auto with wind
    | apply WInd_bind; [|intros ?]
    | apply WInd_filterM; intros ?
    | apply WInd_forM_; intros ?
    | apply WInd_try_except
    | match goal with
      | |- WInd (if ?b then _ else _) => destruct b
      | |- WInd (match ?x with _ => _ end) => destruct x
      end ].

Section WarningsOfMethods.

Context {fsys : Type}.
Variable Table_read : string → option string → fsys → res table.
Variable Table_write :
  table → string → option string → bool → fsys → res unit * fsys.
Variable pickle_load : string → fsys → res (gmap string value).
Variable pickle_dump : gmap string value → string → fsys → res unit * fsys.

Lemma WInd_array_attrs : WInd (fsys := fsys) array_attrs.
Proof. unfold array_attrs. wind. Qed.

Lemma WInd_meta_attrs : WInd (fsys := fsys) meta_attrs.
Proof. unfold meta_attrs. pose proof WInd_array_attrs. wind. Qed.

Lemma WInd_get_meta_dict_loop keys d :
  WInd (fsys := fsys) (get_meta_dict_loop keys d).
Proof.
  revert d. induction keys as [|k keys IH]; intros d; cbn [get_meta_dict_loop];
    wind.
Qed.

Lemma WInd_get_meta_dict : WInd (fsys := fsys) get_meta_dict.
Proof.
  unfold get_meta_dict. pose proof WInd_meta_attrs.
  pose proof WInd_get_meta_dict_loop. wind.
Qed.

Lemma WInd_collect_data attrs d : WInd (fsys := fsys) (collect_data attrs d).
Proof.
  revert d. induction attrs as [|a attrs IH]; intros d; cbn [collect_data]; wind.
Qed.

Lemma WInd_to_astropy_table : WInd (fsys := fsys) to_astropy_table.
Proof.
  unfold to_astropy_table. pose proof WInd_array_attrs.
  pose proof WInd_collect_data. pose proof WInd_get_meta_dict. wind.
Qed.

Lemma WInd_from_astropy_table ts : WInd (fsys := fsys) (from_astropy_table ts).
Proof. unfold from_astropy_table. wind. Qed.

Lemma WInd_read_complex_loop cols is_imag ts :
  WInd (fsys := fsys) (read_complex_loop cols is_imag ts).
Proof.
  revert is_imag ts.
  induction cols as [|c cols IH]; intros is_imag ts; cbn [read_complex_loop];
    wind.
Qed.

Lemma WInd_write_complex_loop cols ts :
  WInd (fsys := fsys) (write_complex_loop cols ts).
Proof.
  revert ts.
  induction cols as [|c cols IH]; intros ts; cbn [write_complex_loop]; wind.
Qed.

Lemma WInd_read_table filename fmt :
  WInd (read_table Table_read filename fmt).
Proof.
  unfold read_table. pose proof WInd_read_complex_loop.
  pose proof WInd_from_astropy_table. wind.
Qed.

Lemma WInd_write_table filename fmt :
  WInd (write_table Table_write filename fmt).
Proof.
  unfold write_table. pose proof WInd_write_complex_loop.
  pose proof WInd_to_astropy_table. wind.
Qed.

End WarningsOfMethods.

(** ** [read] and [write] *)

Section ReadWrite.

Context {fsys : Type}.
Variable Table_read : string → option string → fsys → res table.
Variable Table_write :
  table → string → option string → bool → fsys → res unit * fsys.
Variable pickle_load : string → fsys → res (gmap string value).
Variable pickle_dump : gmap string value → string → fsys → res unit * fsys.
Implicit Types (w : world fsys).

Local Abbreviation reader := (read Table_read pickle_load).
Local Abbreviation writer := (write Table_write pickle_dump).

Lemma WInd_read filename f : WInd (reader filename (Some f) None).
Proof.
  unfold read. pose proof (WInd_read_table Table_read). wind.
Qed.

Lemma WInd_write filename f : WInd (writer filename (Some f) None).
Proof.
  unfold write. pose proof (WInd_write_table Table_write). wind.
Qed.

Lemma WInd_no_warning {A} (m : M fsys A) w :
  WInd m → warnings (m w).2 = warnings w.
Proof.
  intros Hm. specialize (Hm (warnings w) w).
  assert (set_warnings (warnings w) w = w) as Hw by by destruct w.
  rewrite Hw in Hm. destruct (m w) as [r w']. cbn [fst snd] in *.
  injection Hm as Hm. by rewrite Hm.
Qed.

(** C8. [read] and [write] called with [format_] and without [fmt] do
    what they do when called with that value as [fmt], and log one
    [DeprecationWarning] more, which is the only warning of the call; when
    [fmt] is given, [format_] is not looked at and nothing is logged. *)
Theorem deprecated_format_keyword filename f w :
  (reader filename None (Some f) w
   = ((reader filename (Some f) None w).1,
      set_warnings (warnings w ++ [DeprecationWarning deprecation_msg])
                   (reader filename (Some f) None w).2)
   ∧ warnings (reader filename (Some f) None w).2 = warnings w
   ∧ ∀ f', reader filename (Some f) (Some f') w = reader filename (Some f) None w)
  ∧ (writer filename None (Some f) w
     = ((writer filename (Some f) None w).1,
        set_warnings (warnings w ++ [DeprecationWarning deprecation_msg])
                     (writer filename (Some f) None w).2)
     ∧ warnings (writer filename (Some f) None w).2 = warnings w
     ∧ ∀ f', writer filename (Some f) (Some f') w
             = writer filename (Some f) None w).
Proof.
  split; (split; [|split; [|done]]).
  - rewrite <- (WInd_read filename f). done.
  - apply WInd_no_warning, WInd_read.
  - rewrite <- (WInd_write filename f). done.
  - apply WInd_no_warning, WInd_write.
Qed.

End ReadWrite.

(** C4 fails on the code.  [read] of a text table whose column [z.imag]
    comes before [z.real] takes the real half for an imaginary one as well
    (the flag [is_imag] is not assigned when the name ends in [.real] and
    keeps the value of the column before), so that [z] is read as
    [[3j, -1j]] and not as [[1+2j, 3-4j]]; and [read] of a table that
    starts with a real half raises [UnboundLocalError]. *)
Lemma read_depends_on_order_of_halves :
  (∃ w', read MemFS.Table_read MemFS.pickle_load "events.ecsv" None None
           (table_on_disk imag_first_table) = (Ok Cls, w')
         ∧ klass w' !! "z" = Some (VArray (ArrC [2] [cx 0 3; cx 0 (-1)]))
         ∧ klass w' !! "z" ≠ Some (VArray z_complex))
  ∧ (read MemFS.Table_read MemFS.pickle_load "events.ecsv" None None
       (table_on_disk real_first_table)).1 = Raise UnboundLocalError.
Proof.
  split.
  - eexists. split; [vm_compute; reflexivity|].
    split; [vm_compute; reflexivity|]. vm_compute. discriminate.
  - vm_compute. reflexivity.
Qed.

Section ComplexRoundTrip.

Context {fsys : Type}.
Variable Table_read : string → option string → fsys → res table.
Variable Table_write :
  table → string → option string → bool → fsys → res unit * fsys.
Variable pickle_load : string → fsys → res (gmap string value).
Variable pickle_dump : gmap string value → string → fsys → res unit * fsys.

Local Abbreviation reader := (read Table_read pickle_load).
Local Abbreviation writer := (write Table_write pickle_dump).

(** A text format takes the way through the table, with the columns
    taken apart and put together. *)
Lemma text_format_flag fmt :
  text_format fmt →
  bool_decide (table_format fmt = None)
  || from_option (str_in "ascii") false (table_format fmt) = true.
Proof.
  destruct fmt as [f|]; [|done]. intros [_ Hf]. cbn [table_format].
  destruct (decide (lower f = "ascii")) as [Ha|Ha].
  - by rewrite (bool_decide_eq_true_2 _ Ha).
  - rewrite (bool_decide_eq_false_2 _ Ha). destruct Hf as [?|Hf]; [done|].
    cbn [from_option]. rewrite Hf. apply orb_true_r.
Qed.

Lemma write_text_format filename fmt (w : world fsys) :
  text_format fmt →
  writer filename fmt None w
  = write_table Table_write filename (table_format fmt) w.
Proof.
  destruct fmt as [f|]; [|done]. intros [Hp _].
  unfold write, table_format. cbn [bind ret].
  rewrite (bool_decide_eq_false_2 _ Hp). by case_bool_decide.
Qed.

Lemma read_text_format filename fmt (w : world fsys) :
  text_format fmt →
  reader filename fmt None w
  = read_table Table_read filename (table_format fmt) w.
Proof.
  destruct fmt as [f|]; [|done]. intros [Hp _].
  unfold read, table_format. cbn [bind ret].
  rewrite (bool_decide_eq_false_2 _ Hp). by case_bool_decide.
Qed.


End ComplexRoundTrip.

(** ** The theorems at work on the example objects *)

Example array_attrs_events :
  array_attrs events_obj = (Ok ["pi"; "time"], events_obj).
Proof. vm_compute. reflexivity. Qed.

Example meta_attrs_events :
  meta_attrs events_obj
  = (Ok ["gti"; "main_array_attr"; "mission"; "mjdref"], events_obj).
Proof. vm_compute. reflexivity. Qed.

Example get_meta_dict_events :
  (get_meta_dict events_obj).1
  = Ok [("gti", VArray (ArrF [1; 2] [fl 0; fl 4]));
        ("main_array_attr", VStr "time"); ("mjdref", VFloat (fl 55000))].
Proof. vm_compute. reflexivity. Qed.

Example init_undeclared :
  __init__ undeclared_obj = (Raise RuntimeError, undeclared_obj).
Proof. vm_compute. reflexivity. Qed.

Example str_replace_all : replace "a.real.real" ".real" "" = "a".
Proof. reflexivity. Qed.

Lemma events_main_array_attr :
  view events_obj !! "main_array_attr" = Some (VStr "time").
Proof. vm_compute. reflexivity. Defined.

Lemma events_time :
  view events_obj !! "time" = Some (VList [fl 1; fl 2; fl 3]).
Proof. vm_compute. reflexivity. Defined.

Lemma array_attrs_exact_witness :
  ∃ l, array_attrs events_obj = (Ok l, events_obj)
       ∧ "time" ∈ l ∧ "pi" ∈ l ∧ ("gti" ∉ l) ∧ ("mjdref" ∉ l).
Proof.
  destruct (array_attrs_exact events_obj "time" (VList [fl 1; fl 2; fl 3])
              events_main_array_attr events_time)
    as (l & Hrun & _ & _ & Hl).
  destruct (Hl ltac:(discriminate)) as (_ & Hin & Hout & _).
  exists l. split; [exact Hrun|]. split; [|split; [|split]].
  - apply (Hin "time" (VList [fl 1; fl 2; fl 3])); vm_compute; reflexivity.
  - apply (Hin "pi" (VArray (ArrF [3] [fl 10; fl 20; fl 30])));
      vm_compute; reflexivity.
  - apply (Hout "gti" (VArray (ArrF [1; 2] [fl 0; fl 4])));
      [vm_compute; reflexivity | vm_compute; discriminate].
  - apply (Hout "mjdref" (VFloat (fl 55000)));
      [vm_compute; reflexivity | vm_compute; discriminate].
Defined.

Lemma meta_attrs_exact_witness :
  ∃ al ml, array_attrs events_obj = (Ok al, events_obj)
           ∧ meta_attrs events_obj = (Ok ml, events_obj)
           ∧ ("lc" ∉ ml) ∧ ("pi" ∉ ml) ∧ ("_mask" ∉ ml).
Proof.
  destruct (meta_attrs_exact events_obj "time" (VList [fl 1; fl 2; fl 3])
              events_main_array_attr events_time)
    as (al & ml & Hal & Hml & _ & Hin & Hnested).
  exists al, ml. split; [exact Hal|]. split; [exact Hml|].
  split; [|split].
  - apply Hnested. vm_compute. reflexivity.
  - intros (Hpi & _)%Hin. apply Hpi.
    assert ((array_attrs events_obj).1 = Ok ["pi"; "time"]) as Hal0
      by (vm_compute; reflexivity).
    rewrite Hal in Hal0. injection Hal0 as ->. left.
  - intros (_ & Hu & _)%Hin. discriminate Hu.
Defined.

Lemma get_meta_dict_exact_witness :
  ∃ ml d, meta_attrs events_obj = (Ok ml, events_obj)
          ∧ get_meta_dict events_obj = (Ok d, events_obj)
          ∧ dict_get d "mjdref" = Some (VFloat (fl 55000))
          ∧ dict_get d "gti" = Some (VArray (ArrF [1; 2] [fl 0; fl 4]))
          ∧ dict_get d "mission" = None
          ∧ dict_get d "pi" = None
          ∧ ∀ k v, (k, v) ∈ d → v ≠ VNone.
Proof.
  destruct (get_meta_dict_exact events_obj "time" (VList [fl 1; fl 2; fl 3])
              events_main_array_attr events_time)
    as (ml & d & Hml & Hd & Hget & Hnn & _ & Hexact).
  exists ml, d. split; [exact Hml|]. split; [exact Hd|].
  split; [|split; [|split; [|split; [|exact Hnn]]]].
  - apply Hexact. split; [vm_compute; reflexivity|].
    split; [discriminate|]. split; [reflexivity|]. split; [reflexivity|].
    split; [reflexivity|]. intros (_ & Hit & _). discriminate Hit.
  - apply Hexact. split; [vm_compute; reflexivity|].
    split; [discriminate|]. split; [reflexivity|]. split; [reflexivity|].
    split; [reflexivity|]. intros (_ & _ & Hsh). discriminate Hsh.
  - destruct (dict_get d "mission") as [v|] eqn:E; [|reflexivity].
    apply Hget in E as (_ & Hv & Hne). exfalso. apply Hne.
    assert (view events_obj !! "mission" = Some VNone) as Hv0
      by (vm_compute; reflexivity).
    rewrite Hv0 in Hv. by injection Hv as <-.
  - destruct (dict_get d "pi") as [v|] eqn:E; [|reflexivity].
    apply Hexact in E as (Hv & _ & _ & _ & _ & Hnarr). exfalso.
    assert (view events_obj !! "pi"
            = Some (VArray (ArrF [3] [fl 10; fl 20; fl 30]))) as Hv0
      by (vm_compute; reflexivity).
    rewrite Hv0 in Hv. injection Hv as <-. apply Hnarr.
    split; [discriminate|]. split; reflexivity.
Defined.

Lemma main_attr_is_array_attr_witness :
  ∃ l, array_attrs events_obj = (Ok l, events_obj) ∧ "time" ∈ l
       ∧ ∃ ts, to_astropy_table events_obj = (Ok ts, events_obj)
               ∧ dict_get (columns ts) "time" = Some (ArrF [3] [fl 1; fl 2; fl 3]).
Proof.
  destruct (main_attr_is_array_attr events_obj "time"
              (VList [fl 1; fl 2; fl 3])
              events_main_array_attr events_time
              ltac:(discriminate) eq_refl)
    as (l & data & md & Hrun & Hin & _ & _ & _ & _ & _ & _ & Hts).
  exists l. split; [exact Hrun|]. split; [exact Hin|].
  apply Hts. discriminate.
Defined.



(** * Further properties *)

(** ** The classifier and the exporters only read *)

Section ReadOnlyFacts.

Context {fsys : Type}.
Local Abbreviation M := (M fsys).

Lemma ReadOnly_ret {A} (a : A) : ReadOnly (fsys := fsys) (ret a).
Proof. done. Qed.

Lemma ReadOnly_raise {A} e : ReadOnly (fsys := fsys) (raise (A := A) e).
Proof. done. Qed.

Lemma ReadOnly_lift {A} (r : res A) : ReadOnly (fsys := fsys) (lift r).
Proof. done. Qed.

Lemma ReadOnly_bind {A B} (m : M A) (k : A → M B) :
  ReadOnly m → (∀ a, ReadOnly (k a)) → ReadOnly (bind m k).
Proof.
  intros Hm Hk w. unfold bind. specialize (Hm w).
  destruct (m w) as [[a|e] w']; cbn [snd] in *; subst w'; [apply Hk | done].
Qed.

Lemma ReadOnly_getattr_self name : ReadOnly (fsys := fsys) (getattr_self name).
Proof. intros w. unfold getattr_self. by destruct (view w !! name). Qed.

Lemma ReadOnly_as_name n : ReadOnly (fsys := fsys) (as_name n).
Proof. by destruct n. Qed.

Lemma ReadOnly_dir_self : ReadOnly (fsys := fsys) dir_self.
Proof. done. Qed.

Lemma ReadOnly_filterM {A} (p : A → M bool) l :
  (∀ x, ReadOnly (p x)) → ReadOnly (filterM p l).
Proof.
  intros Hp. induction l as [|x l IH]; [done|].
  cbn [filterM]. apply ReadOnly_bind; [done|]. intros b.
  apply ReadOnly_bind; [done|]. intros r. apply ReadOnly_ret.
Qed.

End ReadOnlyFacts.

Create HintDb readonly.
#[export] Hint Resolve ReadOnly_ret ReadOnly_raise ReadOnly_lift
  ReadOnly_getattr_self ReadOnly_as_name ReadOnly_dir_self : readonly.

(** Break an action down to the reading primitives. *)
Ltac readonly :=
  repeat first
    [ progress auto with readonly
    | apply ReadOnly_bind; [|intros ?]
    | apply ReadOnly_filterM; intros ?
    | match goal with
      | |- ReadOnly (if ?b then _ else _) => destruct b
      | |- ReadOnly (match ?x with _ => _ end) => destruct x
      end ].

Section ReadOnlyMethods.

Context {fsys : Type}.
Implicit Types (w : world fsys).

Lemma ReadOnly_array_attrs : ReadOnly (fsys := fsys) array_attrs.
Proof. unfold array_attrs. readonly. Qed.

Lemma ReadOnly_meta_attrs : ReadOnly (fsys := fsys) meta_attrs.
Proof. unfold meta_attrs. pose proof ReadOnly_array_attrs. readonly. Qed.

Lemma ReadOnly_get_meta_dict_loop keys d :
  ReadOnly (fsys := fsys) (get_meta_dict_loop keys d).
Proof.
  revert d. induction keys as [|k keys IH]; intros d; cbn [get_meta_dict_loop];
    readonly.
Qed.

Lemma ReadOnly_get_meta_dict : ReadOnly (fsys := fsys) get_meta_dict.
Proof.
  unfold get_meta_dict. pose proof ReadOnly_meta_attrs.
  pose proof ReadOnly_get_meta_dict_loop. readonly.
Qed.

Lemma ReadOnly_collect_data attrs d :
  ReadOnly (fsys := fsys) (collect_data attrs d).
Proof.
  revert d. induction attrs as [|a attrs IH]; intros d; cbn [collect_data];
    readonly.
Qed.

(** X1. The classifier and the three exporters never change the object,
    its class, the file system or the log of warnings, whether they return
    or raise. *)
Theorem exporters_read_only Dataset DataFrame w :
  (array_attrs w).2 = w ∧ (meta_attrs w).2 = w ∧ (get_meta_dict w).2 = w
  ∧ (to_astropy_table w).2 = w ∧ (to_xarray Dataset w).2 = w
  ∧ (to_pandas DataFrame w).2 = w.
Proof.
  pose proof ReadOnly_array_attrs as Ha.
  pose proof ReadOnly_meta_attrs as Hm.
  pose proof ReadOnly_get_meta_dict as Hg.
  pose proof ReadOnly_collect_data as Hc.
  split_and!.
  - apply Ha.
  - apply Hm.
  - apply Hg.
  - revert w. change (ReadOnly (fsys := fsys) to_astropy_table).
    unfold to_astropy_table. readonly.
  - revert w. change (ReadOnly (to_xarray (fsys := fsys) Dataset)).
    unfold to_xarray. readonly.
  - revert w. change (ReadOnly (to_pandas (fsys := fsys) DataFrame)).
    unfold to_pandas. readonly.
Qed.

End ReadOnlyMethods.

(** ** What the classifier and the exporter give *)

Section ExportFacts.

Context {fsys : Type}.
Implicit Types (w : world fsys) (ns : gmap string value) (ts : table).

Lemma getattr_self_missing w name :
  view w !! name = None → getattr_self name w = (Raise AttributeError, w).
Proof. unfold getattr_self. by intros ->. Qed.

Lemma array_attrs_missing w :
  view w !! "main_array_attr" = None
  ∨ (∃ name, view w !! "main_array_attr" = Some (VStr name)
             ∧ view w !! name = None) →
  array_attrs w = (Raise AttributeError, w).
Proof.
  intros [Hnone|(name & Hname & Hmain)]; unfold array_attrs.
  - by rewrite (bind_raise _ _ _ _ _ (getattr_self_missing _ _ Hnone)).
  - rewrite (bind_ok _ _ _ _ _ (getattr_self_ok _ _ _ Hname)).
    cbn [as_name]. rewrite (bind_ok _ _ w name w) by done.
    by rewrite (bind_raise _ _ _ _ _ (getattr_self_missing _ _ Hmain)).
Qed.

(** X2. When [main_array_attr] is not declared, or the attribute it names
    was never set, the classifier and every exporter raise
    [AttributeError], and nothing is changed. *)
Theorem classifier_needs_main_attr w :
  view w !! "main_array_attr" = None
  ∨ (∃ name, view w !! "main_array_attr" = Some (VStr name)
             ∧ view w !! name = None) →
  array_attrs w = (Raise AttributeError, w)
  ∧ meta_attrs w = (Raise AttributeError, w)
  ∧ get_meta_dict w = (Raise AttributeError, w)
  ∧ to_astropy_table w = (Raise AttributeError, w)
  ∧ (∀ Dataset, to_xarray Dataset w = (Raise AttributeError, w))
  ∧ (∀ DataFrame, to_pandas DataFrame w = (Raise AttributeError, w)).
Proof.
  intros H. pose proof (array_attrs_missing w H) as Ha.
  assert (meta_attrs w = (Raise AttributeError, w)) as Hm.
  { unfold meta_attrs. by rewrite (bind_raise _ _ _ _ _ Ha). }
  split_and!; [done|done|..].
  - unfold get_meta_dict. by rewrite (bind_raise _ _ _ _ _ Hm).
  - unfold to_astropy_table. by rewrite (bind_raise _ _ _ _ _ Ha).
  - intros Dataset. unfold to_xarray. by rewrite (bind_raise _ _ _ _ _ Ha).
  - intros DataFrame. unfold to_pandas. by rewrite (bind_raise _ _ _ _ _ Ha).
Qed.

(** A declaration that is not a string is a [TypeError]. *)
Lemma array_attrs_bad_declaration w v :
  view w !! "main_array_attr" = Some v → (∀ s, v ≠ VStr s) →
  array_attrs w = (Raise TypeError, w).
Proof.
  intros Hv Hs. unfold array_attrs.
  rewrite (bind_ok _ _ _ _ _ (getattr_self_ok _ _ _ Hv)).
  rewrite (bind_raise _ _ w TypeError w); [done|].
  destruct v; try done. by destruct (Hs s).
Qed.

Lemma StronglySorted_filter {A} (R : relation A) (P : A → Prop)
    `{!∀ x, Decision (P x)} (l : list A) :
  StronglySorted R l → StronglySorted R (filter P l).
Proof.
  induction 1 as [|x l Hl IH Hx]; [constructor|].
  rewrite filter_cons. destruct (decide (P x)); [|done].
  constructor; [done|]. apply Forall_forall.
  intros y [_ Hy]%list_elem_of_filter. by apply (proj1 (Forall_forall _ _) Hx).
Qed.

Lemma StronglySorted_dir_of ns : StronglySorted String.le (dir_of ns).
Proof. apply StronglySorted_merge_sort; apply _. Qed.

Lemma dict_set_fresh {V} (d : dict V) k v :
  k ∉ dict_keys d → dict_set d k v = (d ++ [(k, v)])%list.
Proof.
  unfold dict_keys. induction d as [|[k0 v0] d IH]; [done|].
  rewrite fmap_cons, not_elem_of_cons. intros [Hne Hk]. cbn [dict_set fst].
  rewrite decide_False by done. by rewrite IH.
Qed.

Lemma dict_update_fresh {V} (d e : dict V) :
  NoDup (dict_keys d ++ dict_keys e) → dict_update d e = (d ++ e)%list.
Proof.
  unfold dict_update. revert d.
  induction e as [|[k v] e IH]; intros d Hnd.
  - by rewrite app_nil_r.
  - cbn [foldl fst snd]. unfold dict_keys in *.
    rewrite fmap_cons in Hnd. cbn [fst] in Hnd.
    rewrite dict_set_fresh.
    + rewrite IH; [by rewrite <- app_assoc|].
      unfold dict_keys. rewrite fmap_app, <- app_assoc. exact Hnd.
    + apply NoDup_app in Hnd as (_ & Hd & _). intros Hk.
      apply (Hd k Hk). left.
Qed.

(** The table of an object whose main attribute has a dimension. *)
Lemma to_astropy_table_shaped w name main_attr :
  view w !! "main_array_attr" = Some (VStr name) →
  view w !! name = Some main_attr →
  np_shape main_attr ≠ [] →
  let al := filter (is_array_attr (view w) main_attr) (dir_of (view w)) in
  let ml := filter (is_meta_attr (view w) al) (dir_of (view w)) in
  array_attrs w = (Ok al, w) ∧ meta_attrs w = (Ok ml, w)
  ∧ get_meta_dict w = (Ok (export_meta (view w) ml), w)
  ∧ to_astropy_table w
    = (Ok (MkTable (export_data (view w) al) (export_meta (view w) ml)), w)
  ∧ name ∈ al.
Proof.
  intros Hname Hmain Hsh al ml.
  assert (is_None main_attr = false) as HN by by destruct main_attr.
  pose proof (array_attrs_run _ _ _ Hname Hmain) as Hal.
  pose proof (meta_attrs_run _ _ Hal) as Hml.
  rewrite HN in Hal, Hml. fold al in Hal, Hml. fold ml in Hml.
  assert (∀ a, a ∈ al → is_array_attr (view w) main_attr a) as Harr.
  { intros a Ha. by apply list_elem_of_filter in Ha as [? _]. }
  assert (∀ a, a ∈ al → is_Some (view w !! a)) as Hsome.
  { intros a (v & -> & _)%Harr. by eexists. }
  assert (name ∈ al) as Hin.
  { apply list_elem_of_filter. split; [|by apply elem_of_dir_of].
    exists main_attr. split; [done|]. split; [|done].
    by apply shaped_is_iterable. }
  split; [done|]. split; [done|].
  split; [exact (get_meta_dict_run _ _ _ Hal Hml)|]. split; [|done].
  rewrite (to_astropy_table_run _ _ _ Hal Hsome Hml).
  destruct (np_shape main_attr) as [|n sh] eqn:Hshape; [done|].
  rewrite (Table_ok _ n).
  - cbn [columns meta]. rewrite dict_update_fresh; [done|].
    cbn [dict_keys fmap list_fmap app]. apply NoDup_export_meta.
  - intros k a Hka.
    apply (dict_get_elem_NoDup _ _ _ (NoDup_export_data _ _)) in Hka.
    rewrite export_data_get in Hka. case_bool_decide as Hk; [|done].
    injection Hka as <-. apply Harr in Hk as (v & -> & _ & Hv).
    cbn [from_option]. unfold id, leading_dim.
    fold (np_shape v). by rewrite Hv, Hshape.
Qed.

(** X3. [array_attrs()] and [meta_attrs()] list the names in increasing
    order, as [dir] gives them, and the columns of the exported table come
    in that order. *)
Theorem attrs_sorted w name main_attr :
  view w !! "main_array_attr" = Some (VStr name) →
  view w !! name = Some main_attr →
  ∃ al ml, array_attrs w = (Ok al, w) ∧ meta_attrs w = (Ok ml, w)
    ∧ StronglySorted String.le al ∧ StronglySorted String.le ml
    ∧ (∀ ts w', to_astropy_table w = (Ok ts, w') → colnames ts = al).
Proof.
  intros Hname Hmain.
  pose proof (array_attrs_run _ _ _ Hname Hmain) as Hal.
  pose proof (meta_attrs_run _ _ Hal) as Hml.
  eexists _, _. split; [exact Hal|]. split; [exact Hml|].
  match type of Hal with _ = (Ok ?l, _) => set (al := l) in * end.
  assert (StronglySorted String.le al) as Hs.
  { unfold al. destruct (is_None main_attr); [constructor|].
    apply StronglySorted_filter, StronglySorted_dir_of. }
  assert (NoDup al) as Hnd.
  { unfold al. destruct (is_None main_attr); [constructor|].
    apply NoDup_filter, NoDup_dir_of. }
  split; [exact Hs|].
  split; [apply StronglySorted_filter, StronglySorted_dir_of|].
  intros ts w' Hts.
  assert (∀ a, a ∈ al → is_Some (view w !! a)) as Hsome.
  { intros a Ha. unfold al in Ha. destruct (is_None main_attr).
    - by apply elem_of_nil in Ha.
    - apply list_elem_of_filter in Ha as [_ Ha]. by apply elem_of_dir_of. }
  rewrite (to_astropy_table_run _ _ _ Hal Hsome Hml) in Hts.
  destruct (Table (export_data (view w) al)) as [ts0|] eqn:HT; [|done].
  injection Hts as <- _. apply Table_columns in HT as [HT _].
  unfold colnames. cbn [columns]. rewrite HT.
  by apply dict_keys_export_data.
Qed.

(** X4. For an object whose main attribute has at least one dimension,
    [to_astropy_table] returns a table whose columns are the array
    attributes, each the attribute as an array of the main attribute's
    shape, whose metadata is the dict of [get_meta_dict], and whose length
    is the first dimension of the main attribute. *)
Theorem to_astropy_table_exact w name main_attr :
  view w !! "main_array_attr" = Some (VStr name) →
  view w !! name = Some main_attr →
  np_shape main_attr ≠ [] →
  ∃ al md ts,
    array_attrs w = (Ok al, w) ∧ get_meta_dict w = (Ok md, w)
    ∧ to_astropy_table w = (Ok ts, w)
    ∧ colnames ts = al
    ∧ (∀ a v, a ∈ al → view w !! a = Some v →
         dict_get (columns ts) a = Some (np_asarray v))
    ∧ (∀ a c, dict_get (columns ts) a = Some c →
         arr_shape c = np_shape main_attr)
    ∧ meta ts = md
    ∧ table_len ts = hd 0 (np_shape main_attr).
Proof.
  intros Hname Hmain Hsh.
  destruct (to_astropy_table_shaped w name main_attr Hname Hmain Hsh)
    as (Hal & Hml & Hmd & Hts & Hin).
  set (al := filter (is_array_attr (view w) main_attr) (dir_of (view w))) in *.
  set (ml := filter (is_meta_attr (view w) al) (dir_of (view w))) in *.
  assert (∀ a c, dict_get (export_data (view w) al) a = Some c →
                 arr_shape c = np_shape main_attr) as Hshape.
  { intros a c. rewrite export_data_get. case_bool_decide as Ha; [|done].
    intros [= <-]. apply list_elem_of_filter in Ha as [(v & -> & _ & Hv) _].
    exact Hv. }
  exists al, (export_meta (view w) ml),
    (MkTable (export_data (view w) al) (export_meta (view w) ml)).
  split; [exact Hal|]. split; [exact Hmd|]. split; [exact Hts|].
  cbn [columns meta]. unfold colnames. cbn [columns].
  split; [apply dict_keys_export_data, NoDup_filter, NoDup_dir_of|].
  split; [|split; [exact Hshape|split; [done|]]].
  - intros a v Ha Hv. rewrite export_data_get, bool_decide_eq_true_2 by done.
    by rewrite Hv.
  - unfold table_len. cbn [columns].
    destruct (export_data (view w) al) as [|[k c] data] eqn:Hd.
    + assert (dict_get (export_data (view w) al) name = None) as Hnone
        by by rewrite Hd.
      rewrite export_data_get, bool_decide_eq_true_2 in Hnone by done. done.
    + rewrite (Hshape k c); [done|]. cbn [dict_get].
      by rewrite decide_True.
Qed.

(** X5. Nothing public is lost or doubled on export: an attribute that is
    not [None], does not start with an underscore, is not callable and is
    not a nested StingrayObject is a column of the table when it has the
    shape of the main attribute and is iterable, and an entry of the
    metadata otherwise, never both; and the metadata holds nothing else. *)
Theorem export_covers_public_attrs w name main_attr :
  view w !! "main_array_attr" = Some (VStr name) →
  view w !! name = Some main_attr →
  np_shape main_attr ≠ [] →
  ∃ ts, to_astropy_table w = (Ok ts, w)
    ∧ (∀ a v, view w !! a = Some v → v ≠ VNone →
         startswith_underscore a = false → callable v = false →
         hasattr_meta_attrs v = false →
         (np_shape v = np_shape main_attr
          ∧ dict_get (columns ts) a = Some (np_asarray v)
          ∧ dict_get (meta ts) a = None)
         ∨ (np_shape v ≠ np_shape main_attr
            ∧ dict_get (columns ts) a = None
            ∧ dict_get (meta ts) a = Some v))
    ∧ (∀ k v, dict_get (meta ts) k = Some v →
         view w !! k = Some v ∧ v ≠ VNone ∧ startswith_underscore k = false
         ∧ callable v = false ∧ hasattr_meta_attrs v = false
         ∧ dict_get (columns ts) k = None).
Proof.
  intros Hname Hmain Hsh.
  destruct (to_astropy_table_shaped w name main_attr Hname Hmain Hsh)
    as (Hal & Hml & Hmd & Hts & Hin).
  set (al := filter (is_array_attr (view w) main_attr) (dir_of (view w))) in *.
  set (ml := filter (is_meta_attr (view w) al) (dir_of (view w))) in *.
  eexists. split; [exact Hts|]. cbn [columns meta]. split.
  - intros a v Hv Hnn Hu Hc Hm.
    rewrite export_data_get, export_meta_get, Hv. cbn [from_option]. unfold id.
    assert (is_None v = false) as -> by by destruct v. cbn [negb].
    destruct (decide (np_shape v = np_shape main_attr)) as [Heq|Hne].
    + left. split; [done|].
      assert (a ∈ al) as Ha.
      { apply list_elem_of_filter. split; [|by apply elem_of_dir_of].
        exists v. split; [done|]. split; [|done].
        apply shaped_is_iterable. by rewrite Heq. }
      rewrite (bool_decide_eq_true_2 _ Ha). split; [done|].
      rewrite bool_decide_eq_false_2; [done|].
      by intros [(? & _) _]%list_elem_of_filter.
    + right. split; [done|].
      assert (a ∉ al) as Ha.
      { intros [(v' & Hv' & _ & Hs) _]%list_elem_of_filter.
        rewrite Hv in Hv'. injection Hv' as <-. done. }
      rewrite (bool_decide_eq_false_2 _ Ha). split; [done|].
      rewrite bool_decide_eq_true_2; [done|].
      apply list_elem_of_filter. split; [|by apply elem_of_dir_of].
      split; [done|]. split; [done|]. by exists v.
  - intros k v. rewrite export_meta_get, export_data_get.
    case_bool_decide as Hk; [|done].
    apply list_elem_of_filter in Hk as [(Hna & Hu & v' & Hv' & Hc & Hm) _].
    rewrite Hv'. cbn [from_option andb]. unfold id.
    destruct (is_None v') eqn:HN; [done|]. cbn [negb]. intros [= <-].
    rewrite (bool_decide_eq_false_2 _ Hna).
    split_and!; try done. by intros ->.
Qed.

End ExportFacts.

(** ** The importers *)

Section ImportFacts.

Context {fsys : Type}.
Implicit Types (w : world fsys) (ns : gmap string value).

Lemma import_from_lookup get name names ns k :
  import_from get name names ns !! k
  = if bool_decide (k ∈ names ∧ k ≠ name)
    then Some (VArray (default (ArrU [] []) (get k)))
    else ns !! k.
Proof.
  unfold import_from. revert ns.
  induction names as [|a names IH]; intros ns; cbn [foldl].
  - rewrite bool_decide_eq_false_2; [done|]. intros [[]%elem_of_nil _].
  - rewrite IH. destruct (decide (k ∈ names ∧ k ≠ name)) as [[Hin Hne]|Hn].
    + rewrite !bool_decide_eq_true_2; [done| |done].
      split; [by right | done].
    + rewrite (bool_decide_eq_false_2 _ Hn).
      destruct (decide (a = name)) as [->|Hne].
      * rewrite bool_decide_eq_false_2; [done|].
        intros [[->|Hin]%elem_of_cons Hk]; [done|]. by apply Hn.
      * destruct (decide (k = a)) as [->|Hka].
        -- rewrite lookup_insert_eq, bool_decide_eq_true_2; [done|].
           split; [left | done].
        -- rewrite lookup_insert_ne by done.
           rewrite bool_decide_eq_false_2; [done|].
           intros [[->|Hin]%elem_of_cons Hk]; [done|]. by apply Hn.
Qed.

Lemma import_attrs_lookup skip (attrs : dict value) ns k :
  NoDup (dict_keys attrs) →
  import_attrs skip attrs ns !! k
  = if bool_decide (k ∈ skip) then ns !! k
    else match dict_get attrs k with Some v => Some v | None => ns !! k end.
Proof.
  unfold import_attrs, dict_keys. revert ns.
  induction attrs as [|[k0 v0] attrs IH]; intros ns Hnd.
  - cbn [foldl dict_get]. by case_bool_decide.
  - rewrite fmap_cons in Hnd. apply NoDup_cons in Hnd as [Hk0 Hnd].
    cbn [foldl dict_get fst snd]. rewrite (IH _ Hnd).
    destruct (decide (k ∈ skip)) as [Hs|Hs].
    + rewrite (bool_decide_eq_true_2 _ Hs).
      destruct (decide (k0 = k)) as [->|Hne].
      * by rewrite (bool_decide_eq_false_2 (k ∉ skip)) by tauto.
      * destruct (bool_decide (k0 ∉ skip)); [by rewrite lookup_insert_ne | done].
    + rewrite (bool_decide_eq_false_2 _ Hs).
      destruct (decide (k0 = k)) as [->|Hne].
      * apply (dict_get_None attrs k) in Hk0. rewrite Hk0.
        by rewrite (bool_decide_eq_true_2 (k ∉ skip)), lookup_insert_eq.
      * destruct (dict_get attrs k); [done|].
        destruct (bool_decide (k0 ∉ skip)); [by rewrite lookup_insert_ne | done].
Qed.

(** The loop over the column names, for any lookup of a column. *)
Lemma forM_setattr_from (get : string → option ndarray) name names w :
  klass w !! "main_array_attr" = Some (VStr name) →
  "main_array_attr" ∉ names →
  (∀ a, a ∈ names → a ≠ name → is_Some (get a)) →
  forM_ names (λ attr,
    n <- getattr_cls "main_array_attr" ;;
    if bool_decide (VStr attr = n) then ret tt
    else
      a <- lift (from_option Ok (Raise KeyError) (get attr)) ;;
      setattr_cls attr (VArray a)) w
  = (Ok tt, set_klass (import_from get name names (klass w)) w).
Proof.
  unfold import_from. revert w.
  induction names as [|a names IH]; intros w Hmain Hnot Hcols.
  - cbn [forM_ foldl]. by rewrite set_klass_id.
  - apply not_elem_of_cons in Hnot as [Hne Hnot].
    assert (∀ a', a' ∈ names → a' ≠ name → is_Some (get a')) as Hcols'
      by (intros; apply Hcols; [by right | done]).
    cbn [forM_ foldl].
    rewrite (bind_ok _ _ w tt
               (set_klass (if decide (a = name) then klass w
                           else <[a := VArray (default (ArrU [] []) (get a))]>
                                  (klass w)) w)).
    + rewrite IH; [|by (cbn [set_klass klass]; destruct (decide (a = name));
                         [|rewrite lookup_insert_ne])|done..].
      by cbn [set_klass klass inst files warnings].
    + rewrite (bind_ok _ _ _ _ _ (getattr_cls_ok _ _ _ Hmain)).
      destruct (decide (a = name)) as [->|Hn].
      * rewrite bool_decide_eq_true_2 by done. unfold ret.
        by rewrite set_klass_id.
      * rewrite bool_decide_eq_false_2 by congruence.
        destruct (Hcols a ltac:(left) Hn) as [arr Harr].
        rewrite Harr. cbn [from_option]. by rewrite (bind_ok _ _ w arr w).
Qed.

(** The loop over the metadata that passes over the names of columns. *)
Lemma forM_setattr_attrs skip (attrs : dict value) w :
  forM_ attrs (λ kv,
    if bool_decide (kv.1 ∉ skip) then setattr_cls kv.1 kv.2 else ret tt) w
  = (Ok tt, set_klass (import_attrs skip attrs (klass w)) w).
Proof.
  unfold import_attrs. revert w.
  induction attrs as [|[k v] attrs IH]; intros w.
  - cbn [forM_ foldl]. by rewrite set_klass_id.
  - cbn [forM_ foldl fst snd]. case_bool_decide.
    + rewrite (bind_ok _ _ _ _ _ (setattr_cls_run w k v)). by rewrite IH.
    + rewrite (bind_ok _ _ w tt w) by done. apply IH.
Qed.

Lemma from_pandas_run df name mainarray w :
  dataframe_len df ≠ 0 →
  klass w !! "main_array_attr" = Some (VStr name) →
  "main_array_attr" ∉ dict_keys (df_columns df) →
  dict_get (df_columns df) name = Some mainarray →
  from_pandas df w
  = (Ok Cls,
     set_klass
       (import_attrs (dict_keys (df_columns df)) (df_attrs df)
          (import_from (dict_get (df_columns df)) name
             (dict_keys (df_columns df))
             (<[name := VArray mainarray]> (klass w)))) w).
Proof.
  intros Hlen Hmain Hnot Hcol. unfold from_pandas.
  rewrite bool_decide_eq_false_2 by done.
  rewrite (bind_ok _ _ _ _ _ (getattr_cls_ok _ _ _ Hmain)).
  cbn [as_name]. rewrite (bind_ok _ _ w name w) by done.
  rewrite Hcol. cbn [from_option]. rewrite (bind_ok _ _ w mainarray w) by done.
  rewrite (bind_ok _ _ _ _ _ (setattr_cls_run _ _ _)).
  assert (name ≠ "main_array_attr") as Hne.
  { intros ->. apply Hnot. apply elem_of_dict_keys. by rewrite Hcol. }
  set (w1 := set_klass (<[name := VArray mainarray]> (klass w)) w).
  assert (klass w1 !! "main_array_attr" = Some (VStr name)) as Hmain1.
  { unfold w1. cbn [set_klass klass]. by rewrite lookup_insert_ne. }
  rewrite (bind_ok _ _ _ _ _
    (forM_setattr_from (dict_get (df_columns df)) name
       (dict_keys (df_columns df)) w1 Hmain1 Hnot
       (λ a Ha _, proj1 (elem_of_dict_keys _ _) Ha))).
  rewrite (bind_ok _ _ _ _ _ (forM_setattr_attrs _ _ _)). done.
Qed.

Lemma from_xarray_run ds name mainarray w :
  dataset_len ds ≠ 0 →
  klass w !! "main_array_attr" = Some (VStr name) →
  "main_array_attr" ∉ dict_keys (coords ds) →
  dataset_get ds name = Some mainarray →
  from_xarray ds w
  = (Ok Cls,
     set_klass
       (import_attrs (dict_keys (coords ds)) (ds_attrs ds)
          (import_from (dataset_get ds) name (dict_keys (coords ds))
             (<[name := VArray mainarray]> (klass w)))) w).
Proof.
  intros Hlen Hmain Hnot Hcol. unfold from_xarray.
  rewrite bool_decide_eq_false_2 by done.
  rewrite (bind_ok _ _ _ _ _ (getattr_cls_ok _ _ _ Hmain)).
  cbn [as_name]. rewrite (bind_ok _ _ w name w) by done.
  rewrite Hcol. cbn [from_option]. rewrite (bind_ok _ _ w mainarray w) by done.
  rewrite (bind_ok _ _ _ _ _ (setattr_cls_run _ _ _)).
  set (w1 := set_klass (<[name := VArray mainarray]> (klass w)) w).
  destruct (decide (name = "main_array_attr")) as [->|Hne].
  - (* the main attribute cannot be called [main_array_attr] here: the
       class attribute of that name is the string [name] itself *)
    assert (∀ a, a ∈ dict_keys (coords ds) → a ≠ "main_array_attr" →
                 is_Some (dataset_get ds a)) as Hall.
    { intros a Ha _. apply elem_of_dict_keys in Ha as [c Hc].
      unfold dataset_get. destruct (dict_get (data_vars ds) a); [done|].
      by rewrite Hc. }
    assert (klass w1 !! "main_array_attr"
            = Some (VArray mainarray)) as Hmain1.
    { unfold w1. cbn [set_klass klass]. by rewrite lookup_insert_eq. }
    assert (∀ names w',
              klass w' !! "main_array_attr" = Some (VArray mainarray) →
              "main_array_attr" ∉ names →
              (∀ a, a ∈ names → is_Some (dataset_get ds a)) →
              forM_ names (λ attr,
                n <- getattr_cls "main_array_attr" ;;
                if bool_decide (VStr attr = n) then ret tt
                else
                  a <- lift (from_option Ok (Raise KeyError)
                               (dataset_get ds attr)) ;;
                  setattr_cls attr (VArray a)) w'
              = (Ok tt, set_klass
                   (import_from (dataset_get ds) "main_array_attr" names
                      (klass w')) w')) as Hloop.
    { unfold import_from.
      induction names as [|a names IH]; intros w' Hm Hn Hs.
      - cbn [forM_ foldl]. by rewrite set_klass_id.
      - apply not_elem_of_cons in Hn as [Hna Hn].
        destruct (Hs a ltac:(left)) as [arr Harr]. cbn [forM_ foldl].
        rewrite decide_False by done.
        rewrite (bind_ok _ _ w' tt
                   (set_klass (<[a := VArray (default (ArrU [] [])
                                  (dataset_get ds a))]> (klass w')) w')).
        + rewrite IH; [done| |done|].
          * cbn [set_klass klass]. by rewrite lookup_insert_ne.
          * intros; apply Hs; by right.
        + rewrite (bind_ok _ _ _ _ _ (getattr_cls_ok _ _ _ Hm)).
          rewrite bool_decide_eq_false_2 by done.
          rewrite Harr. cbn [from_option].
          by rewrite (bind_ok _ _ w' arr w'). }
    rewrite (bind_ok _ _ _ _ _ (Hloop _ w1 Hmain1 Hnot
               (λ a Ha, Hall a Ha ltac:(by intros ->)))).
    rewrite (bind_ok _ _ _ _ _ (forM_setattr_attrs _ _ _)). done.
  - assert (klass w1 !! "main_array_attr" = Some (VStr name)) as Hmain1.
    { unfold w1. cbn [set_klass klass]. by rewrite lookup_insert_ne. }
    assert (∀ a, a ∈ dict_keys (coords ds) → a ≠ name →
                 is_Some (dataset_get ds a)) as Hall.
    { intros a Ha _. apply elem_of_dict_keys in Ha as [c Hc].
      unfold dataset_get. destruct (dict_get (data_vars ds) a); [done|].
      by rewrite Hc. }
    rewrite (bind_ok _ _ _ _ _
      (forM_setattr_from (dataset_get ds) name (dict_keys (coords ds))
         w1 Hmain1 Hnot Hall)).
    rewrite (bind_ok _ _ _ _ _ (forM_setattr_attrs _ _ _)). done.
Qed.

End ImportFacts.

Section ImportClaims.

Context {fsys : Type}.
Implicit Types (w : world fsys) (ns : gmap string value).

(** X6. [from_astropy_table] of a table with rows sets, on the class and
    nowhere else, every entry of the metadata and every column that the
    metadata does not name as well: where a key of the metadata is also
    the name of a column, the metadata is what stays.  Other attributes of
    the class keep their values. *)
Theorem from_astropy_table_imports ts name w :
  table_len ts ≠ 0 →
  klass w !! "main_array_attr" = Some (VStr name) →
  "main_array_attr" ∉ colnames ts →
  is_Some (dict_get (columns ts) name) →
  NoDup (dict_keys (meta ts)) →
  ∃ w2, from_astropy_table ts w = (Ok Cls, w2)
    ∧ inst w2 = inst w ∧ files w2 = files w ∧ warnings w2 = warnings w
    ∧ (∀ k v, dict_get (meta ts) k = Some v → klass w2 !! k = Some v)
    ∧ (∀ a c, dict_get (columns ts) a = Some c →
         dict_get (meta ts) a = None → klass w2 !! a = Some (VArray c))
    ∧ (∀ k, k ∉ colnames ts → k ∉ dict_keys (meta ts) →
         klass w2 !! k = klass w !! k).
Proof.
  intros Hlen Hmain Hnot [mainarray Hcol] Hnd.
  eexists. split; [exact (from_astropy_table_run ts name _ w Hlen Hmain Hnot Hcol)|].
  cbn [set_klass klass inst files warnings].
  split; [done|]. split; [done|]. split; [done|]. split; [|split].
  - intros k v Hk. by rewrite (foldl_insert_meta_lookup _ _ _ Hnd), Hk.
  - intros a c Ha Hm.
    rewrite (foldl_insert_meta_lookup _ _ _ Hnd), Hm, import_columns_lookup.
    destruct (decide (a = name)) as [->|Hne].
    + rewrite bool_decide_eq_false_2 by (by intros [_ ?]).
      rewrite lookup_insert_eq. rewrite Hcol in Ha. by injection Ha as <-.
    + rewrite bool_decide_eq_true_2, Ha; [done|].
      split; [|done]. apply elem_of_dict_keys. by rewrite Ha.
  - intros k Hk Hm. apply dict_get_None in Hm.
    rewrite (foldl_insert_meta_lookup _ _ _ Hnd), Hm, import_columns_lookup.
    rewrite bool_decide_eq_false_2 by (by intros [? _]).
    rewrite lookup_insert_ne; [done|]. intros <-. apply Hk.
    apply elem_of_dict_keys. by rewrite Hcol.
Qed.

(** X7. [from_pandas] of a data frame with rows sets every column on the
    class, and every attribute of the frame whose key is not the name of a
    column: where a key is both, the column is what stays.  Nothing else
    is changed. *)
Theorem from_pandas_imports df name w :
  dataframe_len df ≠ 0 →
  klass w !! "main_array_attr" = Some (VStr name) →
  "main_array_attr" ∉ dict_keys (df_columns df) →
  is_Some (dict_get (df_columns df) name) →
  NoDup (dict_keys (df_attrs df)) →
  ∃ w2, from_pandas df w = (Ok Cls, w2)
    ∧ inst w2 = inst w ∧ files w2 = files w ∧ warnings w2 = warnings w
    ∧ (∀ a c, dict_get (df_columns df) a = Some c →
         klass w2 !! a = Some (VArray c))
    ∧ (∀ k v, dict_get (df_attrs df) k = Some v →
         k ∉ dict_keys (df_columns df) → klass w2 !! k = Some v)
    ∧ (∀ k, k ∉ dict_keys (df_columns df) → k ∉ dict_keys (df_attrs df) →
         klass w2 !! k = klass w !! k).
Proof.
  intros Hlen Hmain Hnot [mainarray Hcol] Hnd.
  eexists. split; [exact (from_pandas_run df name _ w Hlen Hmain Hnot Hcol)|].
  cbn [set_klass klass inst files warnings].
  split; [done|]. split; [done|]. split; [done|]. split; [|split].
  - intros a c Ha.
    assert (a ∈ dict_keys (df_columns df)) as Hin
      by (apply elem_of_dict_keys; by rewrite Ha).
    rewrite (import_attrs_lookup _ _ _ _ Hnd), bool_decide_eq_true_2 by done.
    rewrite import_from_lookup.
    destruct (decide (a = name)) as [->|Hne].
    + rewrite bool_decide_eq_false_2 by (by intros [_ ?]).
      rewrite lookup_insert_eq. rewrite Hcol in Ha. by injection Ha as <-.
    + by rewrite bool_decide_eq_true_2, Ha.
  - intros k v Hk Hn.
    by rewrite (import_attrs_lookup _ _ _ _ Hnd), bool_decide_eq_false_2, Hk.
  - intros k Hk Hm. apply dict_get_None in Hm.
    rewrite (import_attrs_lookup _ _ _ _ Hnd), bool_decide_eq_false_2, Hm
      by done.
    rewrite import_from_lookup, bool_decide_eq_false_2 by (by intros [? _]).
    rewrite lookup_insert_ne; [done|]. intros <-. apply Hk.
    apply elem_of_dict_keys. by rewrite Hcol.
Qed.

(** X8. [from_xarray] of a dataset with at least one data variable sets
    the main attribute and the coordinates on the class, and every
    attribute of the dataset whose key is not a coordinate.  It loops over
    the coordinates only: a data variable that is neither the main
    attribute nor a coordinate is not set on the class. *)
Theorem from_xarray_imports ds name mainarray w :
  dataset_len ds ≠ 0 →
  klass w !! "main_array_attr" = Some (VStr name) →
  "main_array_attr" ∉ dict_keys (coords ds) →
  dataset_get ds name = Some mainarray →
  NoDup (dict_keys (ds_attrs ds)) →
  ∃ w2, from_xarray ds w = (Ok Cls, w2)
    ∧ inst w2 = inst w ∧ files w2 = files w ∧ warnings w2 = warnings w
    ∧ (name ∈ dict_keys (coords ds) ∨ name ∉ dict_keys (ds_attrs ds) →
       klass w2 !! name = Some (VArray mainarray))
    ∧ (∀ a, a ∈ dict_keys (coords ds) →
         klass w2 !! a = VArray <$> dataset_get ds a)
    ∧ (∀ k v, dict_get (ds_attrs ds) k = Some v →
         k ∉ dict_keys (coords ds) → klass w2 !! k = Some v)
    ∧ (∀ k, k ≠ name → k ∉ dict_keys (coords ds) →
         k ∉ dict_keys (ds_attrs ds) → klass w2 !! k = klass w !! k).
Proof.
  intros Hlen Hmain Hnot Hcol Hnd.
  eexists. split; [exact (from_xarray_run ds name _ w Hlen Hmain Hnot Hcol)|].
  cbn [set_klass klass inst files warnings].
  assert (∀ a, a ∈ dict_keys (coords ds) → is_Some (dataset_get ds a)) as Hall.
  { intros a Ha. apply elem_of_dict_keys in Ha as [c Hc].
    unfold dataset_get. destruct (dict_get (data_vars ds) a); [done|].
    by rewrite Hc. }
  split; [done|]. split; [done|]. split; [done|].
  split; [|split; [|split]].
  - intros Hor. rewrite (import_attrs_lookup _ _ _ _ Hnd).
    assert (import_from (dataset_get ds) name (dict_keys (coords ds))
              (<[name := VArray mainarray]> (klass w)) !! name
            = Some (VArray mainarray)) as Himp.
    { rewrite import_from_lookup, bool_decide_eq_false_2 by (by intros [_ ?]).
      apply lookup_insert_eq. }
    case_bool_decide as Hc; [done|].
    destruct Hor as [?|Hna]; [done|]. apply dict_get_None in Hna.
    by rewrite Hna.
  - intros a Ha.
    rewrite (import_attrs_lookup _ _ _ _ Hnd), bool_decide_eq_true_2 by done.
    rewrite import_from_lookup. destruct (decide (a = name)) as [->|Hne].
    + rewrite bool_decide_eq_false_2 by (by intros [_ ?]).
      by rewrite lookup_insert_eq, Hcol.
    + rewrite bool_decide_eq_true_2 by done.
      destruct (Hall a Ha) as [c Hc]. by rewrite Hc.
  - intros k v Hk Hn.
    by rewrite (import_attrs_lookup _ _ _ _ Hnd), bool_decide_eq_false_2, Hk.
  - intros k Hne Hk Hm. apply dict_get_None in Hm.
    rewrite (import_attrs_lookup _ _ _ _ Hnd), bool_decide_eq_false_2, Hm
      by done.
    rewrite import_from_lookup, bool_decide_eq_false_2 by (by intros [? _]).
    by rewrite lookup_insert_ne.
Qed.

(** X9. An importer given a representation that is not empty but has no
    column named like the main attribute raises [KeyError], and one called
    on a class that does not declare [main_array_attr] raises
    [AttributeError]; nothing has been set on the class by then. *)
Theorem importers_need_main_column w :
  (∀ name ts, klass w !! "main_array_attr" = Some (VStr name) →
     table_len ts ≠ 0 → dict_get (columns ts) name = None →
     from_astropy_table ts w = (Raise KeyError, w))
  ∧ (∀ name ds, klass w !! "main_array_attr" = Some (VStr name) →
       dataset_len ds ≠ 0 → dataset_get ds name = None →
       from_xarray ds w = (Raise KeyError, w))
  ∧ (∀ name df, klass w !! "main_array_attr" = Some (VStr name) →
       dataframe_len df ≠ 0 → dict_get (df_columns df) name = None →
       from_pandas df w = (Raise KeyError, w))
  ∧ (klass w !! "main_array_attr" = None →
     (∀ ts, table_len ts ≠ 0 →
        from_astropy_table ts w = (Raise AttributeError, w))
     ∧ (∀ ds, dataset_len ds ≠ 0 →
          from_xarray ds w = (Raise AttributeError, w))
     ∧ (∀ df, dataframe_len df ≠ 0 →
          from_pandas df w = (Raise AttributeError, w))).
Proof.
  assert (∀ name, klass w !! name = None →
                  getattr_cls name w = (Raise AttributeError, w)) as Hmiss.
  { intros name Hn. unfold getattr_cls. by rewrite Hn. }
  split_and!.
  - intros name ts Hmain Hlen Hcol. unfold from_astropy_table.
    rewrite bool_decide_eq_false_2 by done.
    rewrite (bind_ok _ _ _ _ _ (getattr_cls_ok _ _ _ Hmain)).
    cbn [as_name]. rewrite (bind_ok _ _ w name w) by done.
    rewrite Hcol. by rewrite (bind_raise _ _ w KeyError w).
  - intros name ds Hmain Hlen Hcol. unfold from_xarray.
    rewrite bool_decide_eq_false_2 by done.
    rewrite (bind_ok _ _ _ _ _ (getattr_cls_ok _ _ _ Hmain)).
    cbn [as_name]. rewrite (bind_ok _ _ w name w) by done.
    rewrite Hcol. by rewrite (bind_raise _ _ w KeyError w).
  - intros name df Hmain Hlen Hcol. unfold from_pandas.
    rewrite bool_decide_eq_false_2 by done.
    rewrite (bind_ok _ _ _ _ _ (getattr_cls_ok _ _ _ Hmain)).
    cbn [as_name]. rewrite (bind_ok _ _ w name w) by done.
    rewrite Hcol. by rewrite (bind_raise _ _ w KeyError w).
  - intros Hnone. split_and!.
    + intros ts Hlen. unfold from_astropy_table.
      rewrite bool_decide_eq_false_2 by done.
      by rewrite (bind_raise _ _ _ _ _ (Hmiss _ Hnone)).
    + intros ds Hlen. unfold from_xarray.
      rewrite bool_decide_eq_false_2 by done.
      by rewrite (bind_raise _ _ _ _ _ (Hmiss _ Hnone)).
    + intros df Hlen. unfold from_pandas.
      rewrite bool_decide_eq_false_2 by done.
      by rewrite (bind_raise _ _ _ _ _ (Hmiss _ Hnone)).
Qed.

End ImportClaims.

(** ** What [read] and [write] touch *)

Section KeepsFacts.

Context {fsys X : Type}.
Variable proj : world fsys → X.
Local Abbreviation M := (M fsys).

Lemma Keeps_ReadOnly {A} (m : M A) : ReadOnly m → Keeps proj m.
Proof. intros Hm w. by rewrite Hm. Qed.

Lemma Keeps_bind {A B} (m : M A) (k : A → M B) :
  Keeps proj m → (∀ a, Keeps proj (k a)) → Keeps proj (bind m k).
Proof.
  intros Hm Hk w. unfold bind. specialize (Hm w).
  destruct (m w) as [[a|e] w']; cbn [snd] in *; [|done].
  by rewrite Hk.
Qed.

Lemma Keeps_try_except {A} (m h : M A) e :
  Keeps proj m → Keeps proj h → Keeps proj (try_except m e h).
Proof.
  intros Hm Hh w. unfold try_except. specialize (Hm w).
  destruct (m w) as [[a|e'] w']; cbn [snd] in *; [done|].
  destruct (exn_issubclass e' e); [by rewrite Hh | done].
Qed.

Lemma Keeps_forM_ {A} (f : A → M unit) l :
  (∀ x, Keeps proj (f x)) → Keeps proj (forM_ l f).
Proof.
  intros Hf. induction l as [|x l IH]; [done|].
  cbn [forM_]. by apply Keeps_bind.
Qed.

End KeepsFacts.

Section Footprint.

Context {fsys : Type}.
Variable Table_read : string → option string → fsys → res table.
Variable Table_write :
  table → string → option string → bool → fsys → res unit * fsys.
Variable pickle_load : string → fsys → res (gmap string value).
Variable pickle_dump : gmap string value → string → fsys → res unit * fsys.
Implicit Types (w : world fsys).

Local Abbreviation reader := (read Table_read pickle_load).
Local Abbreviation writer := (write Table_write pickle_dump).

Lemma ReadOnly_to_astropy_table : ReadOnly (fsys := fsys) to_astropy_table.
Proof.
  intros w. by destruct (exporters_read_only (λ _, Raise ValueError)
                           (λ _, Raise ValueError) w) as (_ & _ & _ & ? & _).
Qed.

Lemma ReadOnly_write_complex_loop cols ts :
  ReadOnly (fsys := fsys) (write_complex_loop cols ts).
Proof.
  revert ts.
  induction cols as [|c cols IH]; intros ts; cbn [write_complex_loop];
    readonly.
Qed.

Lemma ReadOnly_read_complex_loop cols is_imag ts :
  ReadOnly (fsys := fsys) (read_complex_loop cols is_imag ts).
Proof.
  revert is_imag ts.
  induction cols as [|c cols IH]; intros is_imag ts; cbn [read_complex_loop];
    readonly.
Qed.

Lemma Keeps_write_files {A X} (proj : world fsys → X)
    (f : fsys → res A * fsys) :
  (∀ w fs, proj (set_files fs w) = proj w) → Keeps proj (write_files f).
Proof.
  intros Hp w. unfold write_files. destruct (f (files w)) as [r fs].
  apply (Hp w fs).
Qed.

(** The table part of [write] changes the files only. *)
Lemma write_table_footprint filename fmt w :
  klass (write_table Table_write filename fmt w).2 = klass w
  ∧ inst (write_table Table_write filename fmt w).2 = inst w
  ∧ warnings (write_table Table_write filename fmt w).2 = warnings w.
Proof.
  assert (∀ X (proj : world fsys → X),
            (∀ w fs, proj (set_files fs w) = proj w) →
            Keeps proj (write_table Table_write filename fmt)) as Hk.
  { intros X proj Hp. unfold write_table.
    apply Keeps_bind; [apply Keeps_ReadOnly, ReadOnly_to_astropy_table|].
    intros ts. apply Keeps_bind.
    - destruct (_ || _); apply Keeps_ReadOnly;
        [apply ReadOnly_write_complex_loop | apply ReadOnly_ret].
    - intros ts'. apply Keeps_try_except; by apply Keeps_write_files. }
  split_and!; by apply Hk.
Qed.

(** The table part of [read] changes the class only. *)
Lemma read_table_footprint filename fmt w :
  inst (read_table Table_read filename fmt w).2 = inst w
  ∧ files (read_table Table_read filename fmt w).2 = files w
  ∧ warnings (read_table Table_read filename fmt w).2 = warnings w.
Proof.
  assert (∀ X (proj : world fsys → X),
            (∀ w ns, proj (set_klass ns w) = proj w) →
            Keeps proj (read_table Table_read filename fmt)) as Hk.
  { intros X proj Hp.
    assert (∀ k v, Keeps proj (setattr_cls (fsys := fsys) k v)) as Hset.
    { intros k v w'. apply (Hp w'). }
    assert (∀ k, Keeps proj (getattr_cls (fsys := fsys) k)) as Hget.
    { intros k w'. unfold getattr_cls. by destruct (klass w' !! k). }
    unfold read_table. apply Keeps_bind; [by intros w'|].
    intros ts. apply Keeps_bind.
    - destruct (_ || _); apply Keeps_ReadOnly;
        [apply ReadOnly_read_complex_loop | apply ReadOnly_ret].
    - intros ts'. unfold from_astropy_table.
      case_bool_decide; [by intros w'|].
      apply Keeps_bind; [done|]. intros n.
      apply Keeps_bind; [apply Keeps_ReadOnly, ReadOnly_as_name|]. intros main.
      apply Keeps_bind; [by intros w'|]. intros arr.
      apply Keeps_bind; [done|]. intros _.
      apply Keeps_bind.
      { apply Keeps_forM_. intros attr. apply Keeps_bind; [done|]. intros n'.
        case_bool_decide; [by intros w'|].
        apply Keeps_bind; [by intros w'|]. intros a. apply Hset. }
      intros _. apply Keeps_bind; [|by intros w'].
      apply Keeps_forM_. intros kv. apply Hset. }
  split_and!; by apply Hk.
Qed.

(** X10. [write] never changes the object or its class: all it touches
    is the file system, and the log of warnings when [format_] is used.
    [read] never changes the instance it is called through or the file
    system: all it touches is the class, and the log of warnings. *)
Theorem read_write_footprint filename fmt format_ w :
  klass (write Table_write pickle_dump filename fmt format_ w).2 = klass w
  ∧ inst (write Table_write pickle_dump filename fmt format_ w).2 = inst w
  ∧ inst (read Table_read pickle_load filename fmt format_ w).2 = inst w
  ∧ files (read Table_read pickle_load filename fmt format_ w).2 = files w.
Proof.
  assert (∀ fmt w,
            klass (writer filename fmt None w).2 = klass w
            ∧ inst (writer filename fmt None w).2 = inst w) as Hw.
  { intros fmt' w'. destruct fmt' as [f|]; unfold write; cbn [bind ret];
      [|by destruct (write_table_footprint filename None w') as (? & ? & _)].
    case_bool_decide.
    - unfold bind, self_dict, write_files.
      by destruct (pickle_dump (inst w') filename (files w')).
    - case_bool_decide;
        by destruct (write_table_footprint filename
                       (Some (if bool_decide (lower f = "ascii")
                              then "ascii.ecsv" else f)) w') as (? & ? & _);
        case_bool_decide. }
  assert (∀ fmt w,
            inst (reader filename fmt None w).2 = inst w
            ∧ files (reader filename fmt None w).2 = files w) as Hr.
  { intros fmt' w'. destruct fmt' as [f|]; unfold read; cbn [bind ret];
      [|by destruct (read_table_footprint filename None w') as (? & ? & _)].
    case_bool_decide.
    - unfold bind, read_files.
      by destruct (pickle_load filename (files w')).
    - case_bool_decide;
        by destruct (read_table_footprint filename
                       (Some (if bool_decide (lower f = "ascii")
                              then "ascii.ecsv" else f)) w') as (? & ? & _);
        case_bool_decide. }
  destruct fmt as [f|], format_ as [g|].
  - destruct (Hw (Some f) w), (Hr (Some f) w). done.
  - destruct (Hw (Some f) w), (Hr (Some f) w). done.
  - set (w1 := World (klass w) (inst w) (files w)
                 (warnings w ++ [DeprecationWarning deprecation_msg])).
    destruct (Hw (Some g) w1), (Hr (Some g) w1). done.
  - destruct (Hw None w), (Hr None w). done.
Qed.

End Footprint.

(** ** [read] and [write]: pickle, errors and the retry *)

Section ReadWriteMore.

Context {fsys : Type}.
Variable Table_read : string → option string → fsys → res table.
Variable Table_write :
  table → string → option string → bool → fsys → res unit * fsys.
Variable pickle_load : string → fsys → res (gmap string value).
Variable pickle_dump : gmap string value → string → fsys → res unit * fsys.
Implicit Types (w : world fsys).

Local Abbreviation reader := (read Table_read pickle_load).
Local Abbreviation writer := (write Table_write pickle_dump).

Lemma write_pickle filename f w :
  lower f = "pickle" →
  writer filename (Some f) None w
  = ((pickle_dump (inst w) filename (files w)).1,
     set_files (pickle_dump (inst w) filename (files w)).2 w).
Proof.
  intros Hf. unfold write. cbn [bind ret].
  rewrite (bool_decide_eq_true_2 _ Hf).
  unfold bind, self_dict, write_files.
  by destruct (pickle_dump (inst w) filename (files w)).
Qed.

Lemma read_pickle filename f w :
  lower f = "pickle" →
  reader filename (Some f) None w
  = (match pickle_load filename (files w) with
     | Ok d => Ok (Unpickled d)
     | Raise e => Raise e
     end, w).
Proof.
  intros Hf. unfold read. cbn [bind ret].
  rewrite (bool_decide_eq_true_2 _ Hf).
  unfold bind, read_files. by destruct (pickle_load filename (files w)).
Qed.

Lemma read_not_pickle filename f w :
  lower f ≠ "pickle" →
  reader filename (Some f) None w
  = read_table Table_read filename (table_format (Some f)) w.
Proof.
  intros Hf. unfold read, table_format. cbn [bind ret].
  rewrite (bool_decide_eq_false_2 _ Hf). by case_bool_decide.
Qed.

Lemma write_not_pickle filename f w :
  lower f ≠ "pickle" →
  writer filename (Some f) None w
  = write_table Table_write filename (table_format (Some f)) w.
Proof.
  intros Hf. unfold write, table_format. cbn [bind ret].
  rewrite (bool_decide_eq_false_2 _ Hf). by case_bool_decide.
Qed.

(** X11. With a format that is [pickle] in any capitals, [write] hands
    the instance to [pickle.dump] and [read] hands back what [pickle.load]
    gives, in both cases without looking at the attributes: if the pickle
    codec gives back what it was given, the instance read is the instance
    written, whatever its attributes are, and the class is as it was. *)
Theorem pickle_round_trip filename f f' w :
  lower f = "pickle" → lower f' = "pickle" →
  (∀ d fs, ∃ fs', pickle_dump d filename fs = (Ok tt, fs')
                  ∧ pickle_load filename fs' = Ok d) →
  ∃ w1, writer filename (Some f) None w = (Ok tt, w1)
    ∧ klass w1 = klass w ∧ inst w1 = inst w ∧ warnings w1 = warnings w
    ∧ reader filename (Some f') None w1 = (Ok (Unpickled (inst w)), w1).
Proof.
  intros Hf Hf' Hcodec.
  destruct (Hcodec (inst w) (files w)) as (fs' & Hdump & Hload).
  exists (set_files fs' w). rewrite write_pickle, Hdump by done.
  split; [done|]. split; [done|]. split; [done|]. split; [done|].
  rewrite read_pickle by done. cbn [set_files files]. by rewrite Hload.
Qed.

(** X12. [read] does not catch what the reader of the file raises: the
    exception of [Table.read], or of [pickle.load] for the format
    [pickle], is the exception of [read], and the class is left as it
    was. *)
Theorem read_propagates_reader_error filename fmt e w :
  match fmt with
  | Some f =>
      if bool_decide (lower f = "pickle")
      then pickle_load filename (files w) = Raise e
      else Table_read filename (table_format fmt) (files w) = Raise e
  | None => Table_read filename None (files w) = Raise e
  end →
  reader filename fmt None w = (Raise e, w).
Proof.
  assert (∀ fmt', Table_read filename fmt' (files w) = Raise e →
                  read_table Table_read filename fmt' w = (Raise e, w)) as Ht.
  { intros fmt' Hr. unfold read_table.
    rewrite (bind_raise _ _ w e w); [done|]. unfold read_files. by rewrite Hr. }
  destruct fmt as [f|]; [|by apply Ht].
  case_bool_decide as Hf; intros Hr.
  - rewrite read_pickle by done. by rewrite Hr.
  - rewrite read_not_pickle by done. by apply Ht.
Qed.

(** X13. The table part of [write] asks the writer for the metadata to
    be serialized, and when that call raises [TypeError], or an exception
    derived from it such as numpy's [UFuncTypeError], it calls the writer
    once more without the option: the outcome is then that of the second
    call, whatever it is, on the file system the first one left.  A first
    call that returns, or raises anything else, is the outcome of
    [write]. *)
Theorem write_retries_without_serialize_meta filename fmt ts ts' w :
  to_astropy_table w = (Ok ts, w) →
  (if bool_decide (fmt = None) || from_option (str_in "ascii") false fmt
   then write_complex_loop (colnames ts) ts w
   else (Ok ts, w)) = (Ok ts', w) →
  write_table Table_write filename fmt w
  = (match Table_write ts' filename fmt true (files w) with
     | (Raise e, fs1) =>
         if exn_issubclass e TypeError
         then ((Table_write ts' filename fmt false fs1).1,
               set_files (Table_write ts' filename fmt false fs1).2 w)
         else (Raise e, set_files fs1 w)
     | (Ok u, fs1) => (Ok u, set_files fs1 w)
     end)
  ∧ (∀ e, exn_issubclass e TypeError = true
          ↔ e = TypeError ∨ e = UFuncTypeError).
Proof.
  intros Hexp Hsplit. split.
  2:{ intros e. destruct e; vm_compute;
        (split; [intros ?|intros [?|?]]); try discriminate; auto. }
  unfold write_table.
  rewrite (bind_ok _ _ _ _ _ Hexp).
  rewrite (bind_ok _ _ w ts' w) by (by destruct (_ || _)).
  unfold try_except, write_files.
  destruct (Table_write ts' filename fmt true (files w)) as [[u|e] fs1];
    [done|].
  destruct (exn_issubclass e TypeError); [|done].
  cbn [files]. unfold set_files.
  by destruct (Table_write ts' filename fmt false fs1).
Qed.

(** The loop of [read] passes over the columns that are not halves. *)
Lemma read_complex_loop_skip cols rest is_imag ts w :
  Forall not_a_half cols →
  read_complex_loop (cols ++ rest) is_imag ts w
  = read_complex_loop rest
      (if cols is [] then is_imag else Some false) ts w.
Proof.
  revert is_imag. induction cols as [|c cols IH]; intros is_imag Hall; [done|].
  apply Forall_cons in Hall as [[Hr Hi] Hall].
  cbn [app read_complex_loop]. rewrite Hr, Hi. cbn [orb from_option negb id].
  rewrite IH by done. by destruct cols.
Qed.

(** X14. [read] of a text table none of whose columns is named like a
    half, and [read] in a format that is not taken for text, import the
    table as the reader gave it: in the second case columns named
    [x.real] and [x.imag] stay two attributes of those names. *)
Theorem read_imports_table_as_read filename fmt ts w :
  Table_read filename (table_format fmt) (files w) = Ok ts →
  (text_format fmt ∧ Forall not_a_half (colnames ts))
  ∨ (∃ f, fmt = Some f ∧ binary_format f) →
  reader filename fmt None w = from_astropy_table ts w.
Proof.
  intros Hread Hcase.
  assert (read_table Table_read filename (table_format fmt) w
          = from_astropy_table ts w) as Htab.
  { unfold read_table.
    rewrite (bind_ok _ _ w ts w) by (unfold read_files; by rewrite Hread).
    rewrite (bind_ok _ _ w ts w); [done|].
    destruct Hcase as [[Htext Hcols]|(f & -> & _ & Ha & Hin)].
    - rewrite text_format_flag by done.
      rewrite <- (app_nil_r (colnames ts)).
      rewrite read_complex_loop_skip by done. by destruct (colnames ts).
    - cbn [table_format]. rewrite (bool_decide_eq_false_2 _ Ha).
      cbn [from_option]. by rewrite Hin. }
  destruct fmt as [f|]; [|exact Htab].
  rewrite read_not_pickle; [exact Htab|].
  destruct Hcase as [[[Hp _] _]|(f' & [= <-] & Hp & _)]; exact Hp.
Qed.

End ReadWriteMore.

(** ** The loop of [write] and the edges of the export *)

Section WriteLoop.

Context {fsys : Type}.
Variable Table_write :
  table → string → option string → bool → fsys → res unit * fsys.
Variable pickle_dump : gmap string value → string → fsys → res unit * fsys.
Implicit Types (w : world fsys) (ts : table).

Local Abbreviation writer := (write Table_write pickle_dump).

Lemma write_complex_loop_keep cols ts w :
  (∀ c, c ∈ cols → ∃ a, dict_get (columns ts) c = Some a
                        ∧ iscomplex_first a = Ok false) →
  write_complex_loop cols ts w = (Ok ts, w).
Proof.
  induction cols as [|c cols IH]; intros Hall; [done|].
  destruct (Hall c ltac:(left)) as (a & Ha & Hc).
  cbn [write_complex_loop]. unfold table_get. rewrite Ha. cbn [from_option].
  rewrite (bind_ok _ _ w a w) by done.
  rewrite (bind_ok _ _ w false w) by (unfold lift; by rewrite Hc).
  apply IH. intros; apply Hall; by right.
Qed.

(** X15. The loop of [write] takes a column apart only when
    [np.iscomplex] holds of its first row, that is, when the imaginary
    part there is not zero: a table all of whose columns are real, or
    complex and starting with a number without imaginary part, goes to
    the writer as it is, complex columns included. *)
Theorem write_keeps_columns_without_imaginary_part ts w :
  (∀ c a, dict_get (columns ts) c = Some a → iscomplex_first a = Ok false) →
  write_complex_loop (colnames ts) ts w = (Ok ts, w)
  ∧ (∀ n x l, iscomplex_first (ArrF [S n] (x :: l)) = Ok false)
  ∧ (∀ n z l, iscomplex_first (ArrC [S n] (z :: l)) = Ok (nonzero (imag z))).
Proof.
  intros Hall. split; [|done].
  apply write_complex_loop_keep. intros c Hc.
  apply elem_of_dict_keys in Hc as [a Ha]. exists a. split; [done|].
  by apply (Hall c).
Qed.

(** X16. In a text format [write] looks at the first row of every column:
    for an object whose main attribute has no row (an empty list or array)
    it raises [IndexError], and no file is written. *)
Theorem write_text_empty_raises_IndexError filename fmt w name main_attr :
  view w !! "main_array_attr" = Some (VStr name) →
  view w !! name = Some main_attr →
  leading_dim (np_asarray main_attr) = Some 0 →
  text_format fmt →
  writer filename fmt None w = (Raise IndexError, w).
Proof.
  intros Hname Hmain Hdim Htext.
  assert (np_shape main_attr ≠ []) as Hsh.
  { unfold np_shape. unfold leading_dim in Hdim.
    by destruct (arr_shape (np_asarray main_attr)). }
  destruct (to_astropy_table_shaped w name main_attr Hname Hmain Hsh)
    as (_ & _ & _ & Hts & Hin).
  set (al := filter (is_array_attr (view w) main_attr) (dir_of (view w))) in *.
  set (ml := filter (is_meta_attr (view w) al) (dir_of (view w))) in *.
  rewrite (write_text_format Table_write pickle_dump) by done.
  unfold write_table. rewrite (bind_ok _ _ _ _ _ Hts).
  rewrite text_format_flag by done.
  rewrite (bind_raise _ _ w IndexError w); [done|].
  unfold colnames. cbn [columns].
  rewrite dict_keys_export_data by apply NoDup_filter, NoDup_dir_of.
  destruct al as [|c al'] eqn:Hal; [by apply elem_of_nil in Hin|].
  assert (c ∈ al) as Hc by (rewrite Hal; left).
  unfold al in Hc. apply list_elem_of_filter in Hc as [(v & Hv & _ & Hshape) _].
  cbn [write_complex_loop]. unfold table_get. cbn [columns].
  rewrite <- Hal at 1. fold al.
  rewrite export_data_get, bool_decide_eq_true_2 by (rewrite Hal; left).
  rewrite Hv. cbn [from_option]. unfold id.
  rewrite (bind_ok _ _ w (np_asarray v) w) by done.
  rewrite (bind_raise _ _ w IndexError w); [done|].
  unfold lift, iscomplex_first. fold (np_shape v). rewrite Hshape.
  unfold leading_dim in Hdim. unfold np_shape.
  by destruct (arr_shape (np_asarray main_attr)) as [|[|n] sh].
Qed.

End WriteLoop.

Section ExportOfNone.

Context {fsys : Type}.
Implicit Types (w : world fsys).

(** X17. An object whose main attribute is [None] has no array
    attributes: [to_astropy_table] returns a table without columns that
    carries the metadata, in which the main attribute itself does not
    appear, and [from_astropy_table] of that table gives the class back
    untouched, so that the metadata does not come back. *)
Theorem export_of_None w name :
  view w !! "main_array_attr" = Some (VStr name) →
  view w !! name = Some VNone →
  ∃ md, array_attrs w = (Ok [], w)
    ∧ get_meta_dict w = (Ok md, w)
    ∧ to_astropy_table w = (Ok (MkTable [] md), w)
    ∧ dict_get md name = None
    ∧ from_astropy_table (MkTable [] md) w = (Ok Cls, w).
Proof.
  intros Hname Hmain.
  pose proof (array_attrs_run _ _ _ Hname Hmain) as Hal. cbn [is_None] in Hal.
  pose proof (meta_attrs_run _ _ Hal) as Hml.
  set (ml := filter (is_meta_attr (view w) []) (dir_of (view w))) in *.
  exists (export_meta (view w) ml). split; [exact Hal|].
  split; [exact (get_meta_dict_run _ _ _ Hal Hml)|]. split; [|split].
  - assert (∀ a : string, a ∈ [] → is_Some (view w !! a)) as Hnil
      by (intros a Ha; by apply elem_of_nil in Ha).
    rewrite (to_astropy_table_run _ _ _ Hal Hnil Hml).
    cbn [export_data dict_fill Table columns meta].
    rewrite dict_update_fresh; [done|].
    cbn [dict_keys fmap list_fmap app]. apply NoDup_export_meta.
  - rewrite export_meta_get, Hmain. cbn [from_option]. unfold id.
    cbn [is_None negb]. by rewrite andb_false_r.
  - unfold from_astropy_table. by rewrite bool_decide_eq_true_2.
Qed.

End ExportOfNone.

(** ** The loop of [read]: a real half followed by its imaginary half *)

Section DictApp.

Context {V : Type}.
Implicit Types (d e : dict V) (k : string).

Lemma dict_get_app_r d e k :
  k ∉ dict_keys d → dict_get (d ++ e)%list k = dict_get e k.
Proof.
  unfold dict_keys. induction d as [|[k0 v0] d IH]; [done|].
  rewrite fmap_cons, not_elem_of_cons. intros [Hne Hk].
  cbn [app dict_get fst]. rewrite decide_False by done. by apply IH.
Qed.

Lemma dict_set_app_r d e k v :
  k ∉ dict_keys d → dict_set (d ++ e)%list k v = (d ++ dict_set e k v)%list.
Proof.
  unfold dict_keys. induction d as [|[k0 v0] d IH]; [done|].
  rewrite fmap_cons, not_elem_of_cons. intros [Hne Hk].
  cbn [app dict_set fst]. rewrite decide_False by done. by rewrite IH.
Qed.

Lemma dict_del_app_r d e k :
  k ∉ dict_keys d → dict_del (d ++ e)%list k = (d ++ dict_del e k)%list.
Proof.
  unfold dict_keys. induction d as [|[k0 v0] d IH]; [done|].
  rewrite fmap_cons, not_elem_of_cons. intros [Hne Hk].
  cbn [app dict_del fst]. rewrite decide_False by done. by rewrite IH.
Qed.

End DictApp.

Section ReadLoop.

Context {fsys : Type}.
Variable Table_read : string → option string → fsys → res table.
Variable pickle_load : string → fsys → res (gmap string value).
Implicit Types (w : world fsys) (ts : table).

Local Abbreviation reader := (read Table_read pickle_load).

(** The loop of [read] on a table that ends with a real half and its
    imaginary half, after columns that are not halves. *)
Lemma read_complex_loop_pair (others : dict ndarray) cr ci b s re im m w :
  others ≠ [] →
  Forall not_a_half (dict_keys others) →
  endswith cr ".real" = true →
  endswith ci ".real" = false → endswith ci ".imag" = true →
  strip_halves cr = b → strip_halves ci = b →
  b ∉ dict_keys others → b ≠ cr → b ≠ ci →
  read_complex_loop
    (colnames (MkTable (others ++ [(cr, ArrF s re); (ci, ArrF s im)])%list m)) None
    (MkTable (others ++ [(cr, ArrF s re); (ci, ArrF s im)])%list m) w
  = (Ok (MkTable (others ++ [(b, ArrC s (zip_with merge_halves re im))])%list m), w).
Proof.
  intros Hne Hoth Hcr Hci_r Hci_i Hsr Hsi Hb Hbr Hbi.
  assert (cr ∉ dict_keys others) as Hcr_o.
  { intros Hin. apply (proj1 (Forall_forall _ _) Hoth) in Hin as [? _].
    congruence. }
  assert (ci ∉ dict_keys others) as Hci_o.
  { intros Hin. apply (proj1 (Forall_forall _ _) Hoth) in Hin as [_ ?].
    congruence. }
  assert (cr ≠ ci) as Hrc by (intros ->; congruence).
  unfold colnames, dict_keys. cbn [columns]. rewrite fmap_app.
  rewrite read_complex_loop_skip by exact Hoth.
  assert ((if others.*1 is [] then None else Some false) = Some false) as ->.
  { by destruct others. }
  cbn [fmap list_fmap fst].
  (* the real half *)
  cbn [read_complex_loop]. rewrite Hcr. cbn [orb negb].
  unfold table_get, strip_halves in *. cbn [columns]. rewrite Hsr.
  rewrite (dict_get_app_r _ _ _ Hcr_o). cbn [dict_get].
  rewrite decide_True by done. cbn [from_option].
  rewrite (bind_ok _ _ w (ArrF s re) w) by done.
  rewrite (bind_ok _ _ w false w) by done.
  rewrite (bind_ok _ _ w (ArrF s re) w) by done.
  cbn [arr_add_0j].
  rewrite (bind_ok _ _ w (ArrC s ((λ x, cadd (of_real x) j0) <$> re)) w)
    by done.
  rewrite bool_decide_eq_true_2.
  2:{ unfold colnames, dict_keys. cbn [columns]. rewrite fmap_app.
      rewrite elem_of_app. cbn [fmap list_fmap fst].
      intros [?|Hin]; [done|].
      apply elem_of_cons in Hin as [?|Hin]; [done|].
      apply list_elem_of_singleton in Hin. done. }
  rewrite (bind_ok _ _ w
    (table_set (MkTable (others ++ [(cr, ArrF s re); (ci, ArrF s im)])%list m) b
       (ArrC s ((λ x, cadd (of_real x) j0) <$> re))) w) by done.
  unfold table_set, remove_column. cbn [columns meta].
  rewrite (dict_set_app_r _ _ _ _ Hb). cbn [dict_set].
  rewrite !decide_False by done.
  rewrite (dict_del_app_r _ _ _ Hcr_o). cbn [dict_del].
  rewrite decide_True by done.
  (* the imaginary half *)
  cbn [read_complex_loop]. rewrite Hci_r, Hci_i. cbn [orb negb from_option id].
  unfold table_get. cbn [columns]. rewrite Hsi.
  rewrite (dict_get_app_r _ _ _ Hci_o). cbn [dict_get].
  rewrite decide_True by done. cbn [from_option].
  rewrite (bind_ok _ _ w (ArrF s im) w) by done.
  rewrite (bind_ok _ _ w true w) by done.
  cbn [arr_mul_1j].
  rewrite (bind_ok _ _ w (ArrC s ((λ x, cmul (of_real x) j1) <$> im)) w)
    by done.
  cbn [arr_add_0j].
  rewrite (bind_ok _ _ w
    (ArrC s ((λ z, cadd z j0) <$> ((λ x, cmul (of_real x) j1) <$> im))) w)
    by done.
  rewrite bool_decide_eq_false_2.
  2:{ intros Hnot. apply Hnot. unfold colnames, dict_keys. cbn [columns].
      rewrite fmap_app, elem_of_app. right. cbn [fmap list_fmap fst].
      right. left. }
  rewrite (dict_get_app_r _ _ _ Hb). cbn [dict_get].
  rewrite decide_False by done. rewrite decide_True by done.
  cbn [from_option]. unfold bind, lift, ret. cbn [arr_iadd].
  rewrite bool_decide_eq_true_2 by done. cbn [columns meta].
  rewrite (dict_set_app_r _ _ _ _ Hb). cbn [dict_set].
  rewrite decide_False by done. rewrite decide_True by done.
  rewrite (dict_del_app_r _ _ _ Hci_o). cbn [dict_del].
  rewrite decide_True by done.
  do 4 f_equal. rewrite <- list_fmap_compose.
  rewrite zip_with_fmap_l, zip_with_fmap_r. reflexivity.
Qed.

(** X18. [read] of a text table that ends with a real half [x.real] and
    then its imaginary half [x.imag], after at least one column and none
    that is named like a half, imports one complex column [x] in their
    place, with the items [(re + 0j) + (im * 1j + 0j)], and the other
    columns as they are. *)
Theorem read_merges_real_then_imag filename fmt
    (others : dict ndarray) cr ci b s re im m w :
  text_format fmt →
  Table_read filename (table_format fmt) (files w)
  = Ok (MkTable (others ++ [(cr, ArrF s re); (ci, ArrF s im)])%list m) →
  others ≠ [] →
  Forall not_a_half (dict_keys others) →
  endswith cr ".real" = true →
  endswith ci ".real" = false → endswith ci ".imag" = true →
  strip_halves cr = b → strip_halves ci = b →
  b ∉ dict_keys others → b ≠ cr → b ≠ ci →
  reader filename fmt None w
  = from_astropy_table
      (MkTable (others ++ [(b, ArrC s (zip_with merge_halves re im))])%list m) w.
Proof.
  intros Htext Hread Hne Hoth Hcr Hci_r Hci_i Hsr Hsi Hb Hbr Hbi.
  rewrite (read_text_format Table_read pickle_load) by done.
  unfold read_table.
  rewrite (bind_ok _ _ w _ w) by (unfold read_files; by rewrite Hread).
  rewrite text_format_flag by done.
  by rewrite (bind_ok _ _ _ _ _
    (read_complex_loop_pair others cr ci b s re im m w
       Hne Hoth Hcr Hci_r Hci_i Hsr Hsi Hb Hbr Hbi)).
Qed.

End ReadLoop.

(** ** The further properties at work on the example objects *)

Lemma unset_main_array_attr :
  view unset_obj !! "main_array_attr" = Some (VStr "time").
Proof. vm_compute. reflexivity. Defined.

Lemma classifier_needs_main_attr_witness :
  array_attrs unset_obj = (Raise AttributeError, unset_obj)
  ∧ to_astropy_table unset_obj = (Raise AttributeError, unset_obj).
Proof.
  destruct (classifier_needs_main_attr unset_obj) as (Ha & _ & _ & Ht & _).
  - right. exists "time". split; [exact unset_main_array_attr|].
    vm_compute. reflexivity.
  - split; [exact Ha | exact Ht].
Defined.

Lemma attrs_sorted_witness :
  ∃ al ml, array_attrs events_obj = (Ok al, events_obj)
           ∧ meta_attrs events_obj = (Ok ml, events_obj)
           ∧ StronglySorted String.le al ∧ StronglySorted String.le ml.
Proof.
  destruct (attrs_sorted events_obj "time" (VList [fl 1; fl 2; fl 3])
              events_main_array_attr events_time)
    as (al & ml & Hal & Hml & Hsa & Hsm & _).
  exists al, ml. split; [exact Hal|]. split; [exact Hml|].
  split; [exact Hsa | exact Hsm].
Defined.

Lemma to_astropy_table_exact_witness :
  ∃ ts, to_astropy_table events_obj = (Ok ts, events_obj)
        ∧ table_len ts = 3
        ∧ dict_get (columns ts) "pi" = Some (ArrF [3] [fl 10; fl 20; fl 30]).
Proof.
  destruct (to_astropy_table_exact events_obj "time"
              (VList [fl 1; fl 2; fl 3])
              events_main_array_attr events_time ltac:(discriminate))
    as (al & md & ts & Hal & _ & Hts & _ & Hcol & _ & _ & Hlen).
  exists ts. split; [exact Hts|]. split; [exact Hlen|].
  apply (Hcol "pi" (VArray (ArrF [3] [fl 10; fl 20; fl 30])));
    [|vm_compute; reflexivity].
  assert ((array_attrs events_obj).1 = Ok ["pi"; "time"]) as Hal0
    by (vm_compute; reflexivity).
  rewrite Hal in Hal0. injection Hal0 as ->. left.
Defined.

Lemma export_covers_public_attrs_witness :
  ∃ ts, to_astropy_table events_obj = (Ok ts, events_obj)
        ∧ dict_get (columns ts) "mjdref" = None
        ∧ dict_get (meta ts) "mjdref" = Some (VFloat (fl 55000)).
Proof.
  destruct (export_covers_public_attrs events_obj "time"
              (VList [fl 1; fl 2; fl 3])
              events_main_array_attr events_time ltac:(discriminate))
    as (ts & Hts & Hcov & _).
  exists ts. split; [exact Hts|].
  destruct (Hcov "mjdref" (VFloat (fl 55000))) as [(Hs & _)|(_ & Hc & Hm)];
    [vm_compute; reflexivity | discriminate | reflexivity..| |].
  - vm_compute in Hs. discriminate Hs.
  - split; [exact Hc | exact Hm].
Defined.

Lemma from_astropy_table_imports_witness :
  ∃ w2, from_astropy_table events_table class_only = (Ok Cls, w2)
        ∧ klass w2 !! "mjdref" = Some (VFloat (fl 55000))
        ∧ klass w2 !! "pi" = Some (VStr "metadata wins")
        ∧ klass w2 !! "time" = Some (VArray (ArrF [2] [fl 0; fl 1])).
Proof.
  destruct (from_astropy_table_imports events_table "time" class_only)
    as (w2 & Hrun & _ & _ & _ & Hmeta & Hcol & _).
  - vm_compute. discriminate.
  - vm_compute. reflexivity.
  - apply (bool_decide_unpack _). vm_compute. exact I.
  - vm_compute. eexists. reflexivity.
  - apply (bool_decide_unpack _). vm_compute. exact I.
  - exists w2. split; [exact Hrun|]. split; [|split].
    + apply Hmeta. reflexivity.
    + apply Hmeta. reflexivity.
    + apply Hcol; reflexivity.
Defined.

Lemma from_pandas_imports_witness :
  ∃ w2, from_pandas events_frame class_only = (Ok Cls, w2)
        ∧ klass w2 !! "mjdref" = Some (VFloat (fl 55000))
        ∧ klass w2 !! "pi" = Some (VArray (ArrF [2] [fl 1; fl 2])).
Proof.
  destruct (from_pandas_imports events_frame "time" class_only)
    as (w2 & Hrun & _ & _ & _ & Hcol & Hattr & _).
  - vm_compute. discriminate.
  - vm_compute. reflexivity.
  - apply (bool_decide_unpack _). vm_compute. exact I.
  - vm_compute. eexists. reflexivity.
  - apply (bool_decide_unpack _). vm_compute. exact I.
  - exists w2. split; [exact Hrun|]. split.
    + apply Hattr; [reflexivity|].
      apply (bool_decide_unpack _). vm_compute. exact I.
    + apply Hcol. reflexivity.
Defined.

Lemma from_xarray_imports_witness :
  ∃ w2, from_xarray events_dataset class_only = (Ok Cls, w2)
        ∧ klass w2 !! "time" = Some (VArray (ArrF [2] [fl 0; fl 1]))
        ∧ klass w2 !! "mjdref" = Some (VFloat (fl 55000))
        ∧ klass w2 !! "counts" = None.
Proof.
  destruct (from_xarray_imports events_dataset "time"
              (ArrF [2] [fl 0; fl 1]) class_only)
    as (w2 & Hrun & _ & _ & _ & Hmain & _ & Hattr & Hother).
  - vm_compute. discriminate.
  - vm_compute. reflexivity.
  - apply (bool_decide_unpack _). vm_compute. exact I.
  - reflexivity.
  - apply (bool_decide_unpack _). vm_compute. exact I.
  - exists w2. split; [exact Hrun|]. split; [|split].
    + apply Hmain. left. apply (bool_decide_unpack _). vm_compute. exact I.
    + apply Hattr; [reflexivity|].
      apply (bool_decide_unpack _). vm_compute. exact I.
    + rewrite Hother.
      * vm_compute. reflexivity.
      * discriminate.
      * apply (bool_decide_unpack _). vm_compute. exact I.
      * apply (bool_decide_unpack _). vm_compute. exact I.
Defined.

Example from_astropy_table_no_main_column :
  from_astropy_table no_time_table class_only = (Raise KeyError, class_only).
Proof. vm_compute. reflexivity. Qed.

Lemma pickle_round_trip_witness :
  ∃ w1, write MemFS.Table_write MemFS.pickle_dump "events.p" (Some "Pickle")
          None events_mem = (Ok tt, w1)
        ∧ read MemFS.Table_read MemFS.pickle_load "events.p" (Some "PICKLE")
            None w1 = (Ok (Unpickled (inst events_mem)), w1).
Proof.
  destruct (pickle_round_trip MemFS.Table_read MemFS.Table_write
              MemFS.pickle_load MemFS.pickle_dump
              "events.p" "Pickle" "PICKLE" events_mem)
    as (w1 & Hw & _ & _ & _ & Hr).
  - reflexivity.
  - reflexivity.
  - intros d fs. exists (<["events.p" := MemFS.FPickle d]> fs).
    split; [reflexivity|]. unfold MemFS.pickle_load.
    by rewrite lookup_insert_eq.
  - exists w1. split; [exact Hw | exact Hr].
Defined.

Lemma read_propagates_reader_error_witness :
  read MemFS.Table_read MemFS.pickle_load "missing.ecsv" None None
    (table_on_disk plain_table)
  = (Raise OSError, table_on_disk plain_table).
Proof.
  apply (read_propagates_reader_error MemFS.Table_read MemFS.pickle_load
           "missing.ecsv" None OSError (table_on_disk plain_table)).
  vm_compute. reflexivity.
Defined.

Lemma write_retries_without_serialize_meta_witness :
  (write_table strict_Table_write "events.h5" (Some "hdf5") events_mem).1
  = Ok tt.
Proof.
  assert (∃ ts, to_astropy_table events_mem = (Ok ts, events_mem))
    as [ts Hts].
  { eexists. vm_compute. reflexivity. }
  destruct (write_retries_without_serialize_meta strict_Table_write
              "events.h5" (Some "hdf5") ts ts events_mem Hts eq_refl)
    as [Hrun _].
  rewrite Hrun. reflexivity.
Defined.

Lemma read_imports_table_as_read_witness :
  read MemFS.Table_read MemFS.pickle_load "events.ecsv" None None
    (table_on_disk plain_table)
  = from_astropy_table plain_table (table_on_disk plain_table).
Proof.
  apply (read_imports_table_as_read MemFS.Table_read MemFS.pickle_load
           "events.ecsv" None plain_table (table_on_disk plain_table)).
  - vm_compute. reflexivity.
  - left. split; [exact I|].
    repeat (constructor; [split; vm_compute; reflexivity|]). constructor.
Defined.

Lemma write_keeps_columns_without_imaginary_part_witness :
  write_complex_loop (colnames leading_real_table) leading_real_table
    class_only
  = (Ok leading_real_table, class_only).
Proof.
  apply (write_keeps_columns_without_imaginary_part leading_real_table
           class_only).
  intros c a. cbn [columns leading_real_table dict_get].
  repeat (case_decide; [intros [= <-]; vm_compute; reflexivity|]).
  discriminate.
Defined.

Lemma write_text_empty_raises_IndexError_witness :
  write (λ _ _ _ _ fs, (Ok tt, fs)) (λ _ _ fs, (Ok tt, fs))
    "empty.ecsv" (Some "ascii") None empty_obj
  = (Raise IndexError, empty_obj).
Proof.
  apply (write_text_empty_raises_IndexError
           (λ _ _ _ _ fs, (Ok tt, fs)) (λ _ _ fs, (Ok tt, fs))
           "empty.ecsv" (Some "ascii") empty_obj "time" (VList [])).
  - vm_compute. reflexivity.
  - vm_compute. reflexivity.
  - reflexivity.
  - split; [vm_compute; discriminate | left; reflexivity].
Defined.

Lemma export_of_None_witness :
  ∃ md, to_astropy_table none_obj = (Ok (MkTable [] md), none_obj)
        ∧ from_astropy_table (MkTable [] md) none_obj = (Ok Cls, none_obj).
Proof.
  destruct (export_of_None none_obj "time") as (md & _ & _ & Ht & _ & Hf).
  - vm_compute. reflexivity.
  - vm_compute. reflexivity.
  - exists md. split; [exact Ht | exact Hf].
Defined.

Lemma read_merges_real_then_imag_witness :
  read MemFS.Table_read MemFS.pickle_load "events.ecsv" (Some "ascii") None
    (table_on_disk (MkTable [("time", ArrF [2] [fl 0; fl 1]);
                             ("z.real", z_real); ("z.imag", z_imag)] []))
  = from_astropy_table
      (MkTable [("time", ArrF [2] [fl 0; fl 1]);
                ("z", ArrC [2] (zip_with merge_halves [fl 1; fl 3]
                                  [fl 2; fl (-4)]))] [])
      (table_on_disk (MkTable [("time", ArrF [2] [fl 0; fl 1]);
                               ("z.real", z_real); ("z.imag", z_imag)] [])).
Proof.
  apply (read_merges_real_then_imag MemFS.Table_read MemFS.pickle_load
           "events.ecsv" (Some "ascii")
           [("time", ArrF [2] [fl 0; fl 1])] "z.real" "z.imag" "z"
           [2] [fl 1; fl 3] [fl 2; fl (-4)] []).
  - split; [vm_compute; discriminate | left; reflexivity].
  - vm_compute. reflexivity.
  - discriminate.
  - constructor; [split; vm_compute; reflexivity | constructor].
  - vm_compute. reflexivity.
  - vm_compute. reflexivity.
  - vm_compute. reflexivity.
  - vm_compute. reflexivity.
  - vm_compute. reflexivity.
  - apply (bool_decide_unpack _). vm_compute. exact I.
  - discriminate.
  - discriminate.
Defined.

Example merge_halves_exact :
  zip_with merge_halves [fl 1; fl 3] [fl 2; fl (-4)] = [cx 1 2; cx 3 (-4)].
Proof. vm_compute. reflexivity. Qed.

(** C5 fails on the code for [from_xarray].  The length of a dataset is
    the number of its data variables, not of its rows, so that the guard
    [if len(ts) == 0], which makes [from_astropy_table] and [from_pandas]
    hand back the class untouched for a table and a data frame without
    rows, does not hold for a dataset without rows that has a data
    variable: [from_xarray] sets the empty [time] and the metadata on the
    class.  And a dataset with rows whose variables are all coordinates is
    taken for empty. *)
Lemma from_xarray_guard_counts_variables :
  (∃ w', from_xarray zero_row_dataset class_only = (Ok Cls, w')
         ∧ klass class_only !! "time" = None
         ∧ klass w' !! "time" = Some (VArray (ArrF [0] []))
         ∧ klass class_only !! "mjdref" = None
         ∧ klass w' !! "mjdref" = Some (VFloat (fl 55000)))
  ∧ from_xarray coords_only_dataset class_only = (Ok Cls, class_only)
  ∧ from_astropy_table zero_row_table class_only = (Ok Cls, class_only)
  ∧ from_pandas zero_row_frame class_only = (Ok Cls, class_only).
Proof.
  split; [|split; [|split]].
  - eexists. split; [vm_compute; reflexivity|].
    split; [vm_compute; reflexivity|]. split; [vm_compute; reflexivity|].
    split; vm_compute; reflexivity.
  - vm_compute. reflexivity.
  - vm_compute. reflexivity.
  - vm_compute. reflexivity.
Qed.

(** The two writers of the examples give back what they are given, the
    one by taking [serialize_meta], the other on the second call. *)
Example MemFS_gives_back filename fmt ts fs0 :
  codec_gives_back MemFS.Table_read MemFS.Table_write filename fmt ts fs0.
Proof.
  left. exists (<[filename := MemFS.FTable ts]> fs0). split; [reflexivity|].
  unfold MemFS.Table_read. by rewrite lookup_insert_eq.
Qed.

Example strict_gives_back filename fmt ts fs0 :
  codec_gives_back MemFS.Table_read strict_Table_write filename fmt ts fs0.
Proof.
  right. exists TypeError, fs0, (<[filename := MemFS.FTable ts]> fs0).
  split; [reflexivity|]. split; [reflexivity|]. split; [reflexivity|].
  unfold MemFS.Table_read. by rewrite lookup_insert_eq.
Qed.
